(** * Cascade: priors, covariate columns, data normalisation and the
      Dismod-AT session protocol

    A shallow embedding of the Python sources
      - [src/cascade/model/priors.py]
      - [src/cascade/model/covariates.py]
      - [src/cascade/model/session.py]
      - [src/cascade/executor/no_covariate_main.py] ([choose_constraints])
    together with a model of [AgeTimeGrid], the properties the
    specification states about them, and further properties of the
    code. *)

From Stdlib Require Import QArith Qcanon.
From stdpp Require Import base numbers strings list gmap pretty.

Local Open Scope string_scope.

(** ** Python exceptions and fallible results *)

Inductive exn :=
| ValueError (msg : string)
| TypeError (msg : string)
| RuntimeError (msg : string)
| AttributeError (msg : string)
| AssertionError (msg : string)
| DismodATException (msg : string).

Inductive result (A : Type) :=
| Ok (a : A)
| Raise (e : exn).
Arguments Ok {A} a.
Arguments Raise {A} e.

Definition rbind {A B} (r : result A) (k : A → result B) : result B :=
  match r with
  | Ok a => k a
  | Raise e => Raise e
  end.

Declare Scope result_scope.
Delimit Scope result_scope with result.
Notation "x ←r e ; k" := (rbind e (λ x, k))
  (at level 100, e at next level, k at level 200, right associativity)
  : result_scope.
Notation "e ;;r k" := (rbind e (λ _, k))
  (at level 100, k at level 200, right associativity) : result_scope.
Local Open Scope result_scope.

Definition succeeded {A} (r : result A) : bool :=
  match r with Ok _ => true | Raise _ => false end.

Definition is_ValueError {A} (r : result A) : bool :=
  match r with Raise (ValueError _) => true | _ => false end.

(** ** Python numbers

    The values the code compares are Python ints and floats.  Comparison
    between them is exact, so a finite value is a rational; floats add the
    two infinities (the defaults of the prior bounds) and NaN, against
    which every ordering comparison is false. *)

Inductive number :=
| NegInf
| Finite (q : Qc)
| PosInf
| NaN.

Global Instance number_eq_dec : EqDecision number.
Proof. solve_decision. Defined.

Global Instance number_countable : Countable number.
Proof.
  refine (inj_countable'
    (λ x, match x with
          | NegInf => inl (inl ())
          | Finite q => inr q
          | PosInf => inl (inr true)
          | NaN => inl (inr false)
          end)
    (λ y, match y with
          | inl (inl ()) => NegInf
          | inr q => Finite q
          | inl (inr true) => PosInf
          | inl (inr false) => NaN
          end) _).
  by intros [].
Defined.

Definition int (z : Z) : number := Finite (Qc_of_Z z).

(** [x <= y] *)
Definition num_le (x y : number) : bool :=
  match x, y with
  | NaN, _ | _, NaN => false
  | NegInf, _ => true
  | _, PosInf => true
  | Finite a, Finite b => Qle_bool a b
  | _, _ => false
  end.

(** [x < y] *)
Definition num_lt (x y : number) : bool :=
  match x, y with
  | NaN, _ | _, NaN => false
  | NegInf, NegInf => false
  | NegInf, _ => true
  | PosInf, _ => false
  | _, PosInf => true
  | Finite a, Finite b => negb (Qle_bool b a)
  | _, _ => false
  end.

(** [x > y] is [y < x]. *)
Definition num_gt (x y : number) : bool := num_lt y x.

Definition is_nan (x : number) : bool :=
  match x with NaN => true | _ => false end.

(** ** priors.py *)

Module priors.

(** The concrete classes.  [LaplacePrior] subclasses [GaussianPrior] and
    [LogLaplacePrior] subclasses [LogGaussianPrior]: each inherits the
    constructor and [parameters] and changes only [density]. *)
Inductive gaussian_class := GaussianPrior_cls | LaplacePrior_cls.
Inductive log_gaussian_class := LogGaussianPrior_cls | LogLaplacePrior_cls.

Global Instance gaussian_class_eq_dec : EqDecision gaussian_class.
Proof. solve_decision. Defined.
Global Instance log_gaussian_class_eq_dec : EqDecision log_gaussian_class.
Proof. solve_decision. Defined.

(** An instance: the attributes its [__init__] has set. *)
Inductive Prior :=
| uniform_obj (name : option string) (lower upper mean : number)
| gaussian_obj (cls : gaussian_class) (name : option string)
    (lower upper mean standard_deviation : number)
| students_obj (name : option string)
    (lower upper mean standard_deviation nu : number)
| log_gaussian_obj (cls : log_gaussian_class) (name : option string)
    (lower upper mean standard_deviation eta : number)
| log_students_obj (name : option string)
    (lower upper mean standard_deviation nu eta : number).

Global Instance Prior_eq_dec : EqDecision Prior.
Proof. solve_decision. Defined.

(** The class attribute [density]. *)
Definition density (p : Prior) : string :=
  match p with
  | uniform_obj _ _ _ _ => "uniform"
  | gaussian_obj GaussianPrior_cls _ _ _ _ _ => "gaussian"
  | gaussian_obj LaplacePrior_cls _ _ _ _ _ => "laplace"
  | students_obj _ _ _ _ _ _ => "students"
  | log_gaussian_obj LogGaussianPrior_cls _ _ _ _ _ _ => "log_gaussian"
  | log_gaussian_obj LogLaplacePrior_cls _ _ _ _ _ _ => "log_laplace"
  | log_students_obj _ _ _ _ _ _ _ => "log_students"
  end.

(** [self.name] *)
Definition name (p : Prior) : option string :=
  match p with
  | uniform_obj n _ _ _ | gaussian_obj _ n _ _ _ _ | students_obj n _ _ _ _ _
  | log_gaussian_obj _ n _ _ _ _ _ | log_students_obj n _ _ _ _ _ _ => n
  end.

(** [parameters()].  Every concrete class overrides [parameters] itself
    (not [_parameters]), so the base method, the only one that would add
    the [density] entry, is never the one called. *)
Definition parameters (p : Prior) : gmap string number :=
  match p with
  | uniform_obj _ lo up m =>
      <["lower" := lo]> (<["upper" := up]> (<["mean" := m]> ∅))
  | gaussian_obj _ _ lo up m sd =>
      <["lower" := lo]> (<["upper" := up]> (<["mean" := m]>
        (<["std" := sd]> ∅)))
  | students_obj _ lo up m sd nu =>
      <["lower" := lo]> (<["upper" := up]> (<["mean" := m]>
        (<["std" := sd]> (<["nu" := nu]> ∅))))
  | log_gaussian_obj _ _ lo up m sd eta =>
      <["lower" := lo]> (<["upper" := up]> (<["mean" := m]>
        (<["std" := sd]> (<["eta" := eta]> ∅))))
  | log_students_obj _ lo up m sd nu eta =>
      <["lower" := lo]> (<["upper" := up]> (<["mean" := m]>
        (<["std" := sd]> (<["nu" := nu]> (<["eta" := eta]> ∅)))))
  end.

(** [frozenset(d.items())] *)
Definition frozenset_items (d : gmap string number) : gset (string * number) :=
  map_to_set pair d.

(** What [__eq__] may be handed as [other]. *)
Inductive py_object :=
| a_Prior (p : Prior)
| not_a_Prior.

(** [__eq__]: [isinstance(other, _Prior) and self.name == other.name and
    self.parameters() == other.parameters()].  Dict comparison tests the
    values with identity first, so a NaN entry compares equal to itself;
    the model identifies all NaN objects (as [math.nan] is one object). *)
Definition __eq__ (self : Prior) (other : py_object) : bool :=
  match other with
  | a_Prior o =>
      bool_decide (name self = name o)
      && bool_decide (parameters self = parameters o)
  | not_a_Prior => false
  end.

Section hashing.
(** Python's [hash] on a frozenset is some function of its elements. *)
Variable hash : gset (string * number) → Z.

(** [__hash__]: [hash(frozenset(self.parameters().items()))] *)
Definition __hash__ (self : Prior) : Z :=
  hash (frozenset_items (parameters self)).
End hashing.

Definition _validate_bounds (lower mean upper : number) : result () :=
  if negb (num_le lower mean && num_le mean upper)
  then Raise (ValueError "Bounds are inconsistent")
  else Ok ().

Definition _validate_standard_deviation (standard_deviation : number)
  : result () :=
  if num_lt standard_deviation (int 0)
  then Raise (ValueError "Standard deviation must be positive")
  else Ok ().

Definition _validate_nu (nu : number) : result () :=
  if num_lt nu (int 0)
  then Raise (ValueError "Nu must be positive")
  else Ok ().

(** The defaults of the keyword arguments [lower] and [upper]. *)
Definition default_lower : number := NegInf.
Definition default_upper : number := PosInf.

Definition UniformPrior (mean lower upper : number) (name : option string)
  : result Prior :=
  _validate_bounds lower mean upper ;;r
  Ok (uniform_obj name lower upper mean).

Definition gaussian_init (cls : gaussian_class)
    (mean standard_deviation lower upper : number) (name : option string)
  : result Prior :=
  _validate_bounds lower mean upper ;;r
  _validate_standard_deviation standard_deviation ;;r
  Ok (gaussian_obj cls name lower upper mean standard_deviation).

Definition GaussianPrior := gaussian_init GaussianPrior_cls.
Definition LaplacePrior := gaussian_init LaplacePrior_cls.

Definition StudentsTPrior (mean standard_deviation nu lower upper : number)
    (name : option string) : result Prior :=
  _validate_bounds lower mean upper ;;r
  _validate_standard_deviation standard_deviation ;;r
  _validate_nu nu ;;r
  Ok (students_obj name lower upper mean standard_deviation nu).

Definition log_gaussian_init (cls : log_gaussian_class)
    (mean standard_deviation eta lower upper : number) (name : option string)
  : result Prior :=
  _validate_bounds lower mean upper ;;r
  _validate_standard_deviation standard_deviation ;;r
  Ok (log_gaussian_obj cls name lower upper mean standard_deviation eta).

Definition LogGaussianPrior := log_gaussian_init LogGaussianPrior_cls.
Definition LogLaplacePrior := log_gaussian_init LogLaplacePrior_cls.

Definition LogStudentsTPrior
    (mean standard_deviation nu eta lower upper : number)
    (name : option string) : result Prior :=
  _validate_bounds lower mean upper ;;r
  _validate_standard_deviation standard_deviation ;;r
  _validate_nu nu ;;r
  Ok (log_students_obj name lower upper mean standard_deviation nu eta).

End priors.

(** ** Calls of the prior constructors *)

Module prior_calls.
Import priors.

(** A call of one of the seven constructors, with its arguments. *)
Inductive prior_call :=
| call_uniform (mean lower upper : number) (name : option string)
| call_gaussian (cls : gaussian_class)
    (mean standard_deviation lower upper : number) (name : option string)
| call_students (mean standard_deviation nu lower upper : number)
    (name : option string)
| call_log_gaussian (cls : log_gaussian_class)
    (mean standard_deviation eta lower upper : number) (name : option string)
| call_log_students (mean standard_deviation nu eta lower upper : number)
    (name : option string).

Definition construct (c : prior_call) : result Prior :=
  match c with
  | call_uniform m lo up n => UniformPrior m lo up n
  | call_gaussian cls m sd lo up n => gaussian_init cls m sd lo up n
  | call_students m sd nu lo up n => StudentsTPrior m sd nu lo up n
  | call_log_gaussian cls m sd eta lo up n =>
      log_gaussian_init cls m sd eta lo up n
  | call_log_students m sd nu eta lo up n =>
      LogStudentsTPrior m sd nu eta lo up n
  end.

Definition arg_mean (c : prior_call) : number :=
  match c with
  | call_uniform m _ _ _ | call_gaussian _ m _ _ _ _
  | call_students m _ _ _ _ _ | call_log_gaussian _ m _ _ _ _ _
  | call_log_students m _ _ _ _ _ _ => m
  end.

Definition arg_lower (c : prior_call) : number :=
  match c with
  | call_uniform _ lo _ _ | call_gaussian _ _ _ lo _ _
  | call_students _ _ _ lo _ _ | call_log_gaussian _ _ _ _ lo _ _
  | call_log_students _ _ _ _ lo _ _ => lo
  end.

Definition arg_upper (c : prior_call) : number :=
  match c with
  | call_uniform _ _ up _ | call_gaussian _ _ _ _ up _
  | call_students _ _ _ _ up _ | call_log_gaussian _ _ _ _ _ up _
  | call_log_students _ _ _ _ _ up _ => up
  end.

(** The standard deviation, for the classes that take one. *)
Definition arg_standard_deviation (c : prior_call) : option number :=
  match c with
  | call_uniform _ _ _ _ => None
  | call_gaussian _ _ sd _ _ _ | call_students _ sd _ _ _ _
  | call_log_gaussian _ _ sd _ _ _ _ | call_log_students _ sd _ _ _ _ _ =>
      Some sd
  end.

(** The degrees of freedom, for the classes that take them. *)
Definition arg_nu (c : prior_call) : option number :=
  match c with
  | call_students _ _ nu _ _ _ | call_log_students _ _ nu _ _ _ _ => Some nu
  | _ => None
  end.

(** The object a successful call builds. *)
Definition object_of (c : prior_call) : Prior :=
  match c with
  | call_uniform m lo up n => uniform_obj n lo up m
  | call_gaussian cls m sd lo up n => gaussian_obj cls n lo up m sd
  | call_students m sd nu lo up n => students_obj n lo up m sd nu
  | call_log_gaussian cls m sd eta lo up n =>
      log_gaussian_obj cls n lo up m sd eta
  | call_log_students m sd nu eta lo up n =>
      log_students_obj n lo up m sd nu eta
  end.

Definition negative (x : option number) : bool :=
  match x with Some v => num_lt v (int 0) | None => false end.

Definition non_negative (x : option number) : bool :=
  match x with Some v => num_le (int 0) v | None => true end.

(** [lower > mean], [mean > upper], [standard_deviation < 0] or [nu < 0]. *)
Definition violated (c : prior_call) : bool :=
  num_gt (arg_lower c) (arg_mean c)
  || num_gt (arg_mean c) (arg_upper c)
  || negative (arg_standard_deviation c)
  || negative (arg_nu c).

(** [lower <= mean <= upper], [standard_deviation >= 0] and [nu >= 0]. *)
Definition within (c : prior_call) : bool :=
  num_le (arg_lower c) (arg_mean c)
  && num_le (arg_mean c) (arg_upper c)
  && non_negative (arg_standard_deviation c)
  && non_negative (arg_nu c).

(** Change only the name of an instance. *)
Definition with_name (n : option string) (p : Prior) : Prior :=
  match p with
  | uniform_obj _ lo up m => uniform_obj n lo up m
  | gaussian_obj cls _ lo up m sd => gaussian_obj cls n lo up m sd
  | students_obj _ lo up m sd nu => students_obj n lo up m sd nu
  | log_gaussian_obj cls _ lo up m sd eta =>
      log_gaussian_obj cls n lo up m sd eta
  | log_students_obj _ lo up m sd nu eta =>
      log_students_obj n lo up m sd nu eta
  end.

End prior_calls.

(** ** covariates.py *)

Module covariates.

Section CovariateColumn.
(** The arguments are arbitrary Python values.  [float] and [str] are
    the builtins; [float] raises on a value it cannot convert.
    [as_str v] is the string [v] is when [isinstance(v, str)]. *)
Context {Value : Type}.
Variable float : Value → result number.
Variable str : Value → string.
Variable as_str : Value → option string.

Record CovariateColumn := {
  _name : option string;
  _reference : option number;
  _max_difference : option number;
}.

(** A property setter mutates [self] and may raise: it yields the
    outcome and the object as it is afterwards. *)
Definition setter := CovariateColumn → result () * CovariateColumn.

(** [@name.setter] *)
Definition name_set (nom : Value) : setter := λ self,
  match as_str nom with
  | None =>
      (Raise (ValueError ("CovariateColumn name must be a string " +:+ str nom)),
       self)
  | Some s =>
      if bool_decide (String.length s < 1)%nat
      then (Raise (ValueError "CovariateColumn name must not be empty string"),
            self)
      else (Ok (), {| _name := Some s; _reference := _reference self;
                      _max_difference := _max_difference self |})
  end.

(** [@reference.setter] *)
Definition reference_set (ref : Value) : setter := λ self,
  match float ref with
  | Raise e => (Raise e, self)
  | Ok r => (Ok (), {| _name := _name self; _reference := Some r;
                       _max_difference := _max_difference self |})
  end.

(** [@max_difference.setter]; [difference] is [None] or a value. *)
Definition max_difference_set (difference : option Value) : setter := λ self,
  match difference with
  | None =>
      (Ok (), {| _name := _name self; _reference := _reference self;
                 _max_difference := None |})
  | Some v =>
      match float v with
      | Raise e => (Raise e, self)
      | Ok diff =>
          if num_le diff (int 0)
          then (Raise (ValueError ("max difference must be positive " +:+ str v)),
                self)
          else (Ok (), {| _name := _name self; _reference := _reference self;
                          _max_difference := Some diff |})
      end
  end.

(** Run a setter, and go on with the mutated object when it returns. *)
Definition and_then (s : setter) (k : CovariateColumn → result CovariateColumn)
  : CovariateColumn → result CovariateColumn := λ self,
  match s self with
  | (Ok (), self') => k self'
  | (Raise e, _) => Raise e
  end.

(** [__init__(self, column_name, reference=None, max_difference=None)] *)
Definition __init__ (column_name : Value) (reference max_difference : option Value)
  : result CovariateColumn :=
  and_then (name_set column_name) (λ self,
    and_then (match reference with
              | Some r => reference_set r
              | None => λ self, (Ok (), self)
              end) (λ self,
      and_then (max_difference_set max_difference) Ok self) self)
    {| _name := None; _reference := None; _max_difference := None |}.
End CovariateColumn.

(** The conversion of a value that already is a float. *)
Definition float_of_float (x : number) : result number := Ok x.

End covariates.

(** ** The part of pandas the session uses

    A [DataFrame] is an index of row labels and an ordered list of named
    columns, each column holding one cell per row. *)

Module pandas.

Inductive label :=
| LInt (z : Z)
| LStr (s : string).

Inductive cell :=
| CNone
| CNum (x : number)
| CStr (s : string).

Global Instance label_eq_dec : EqDecision label.
Proof. solve_decision. Defined.
Global Instance cell_eq_dec : EqDecision cell.
Proof. solve_decision. Defined.

Record DataFrame := {
  index : list label;
  cols : list (string * list cell);
}.

(** [df.columns] *)
Definition columns (df : DataFrame) : list string := (cols df).*1.

(** [c in df.columns] *)
Definition has_column (c : string) (df : DataFrame) : bool :=
  bool_decide (c ∈ columns df).

Fixpoint alist_lookup (c : string) (l : list (string * list cell))
  : option (list cell) :=
  match l with
  | [] => None
  | (k, v) :: l => if decide (k = c) then Some v else alist_lookup c l
  end.

(** [df[c]], for a column that is there. *)
Definition getitem (df : DataFrame) (c : string) : list cell :=
  default [] (alist_lookup c (cols df)).

Fixpoint alist_assign (c : string) (v : list cell)
    (l : list (string * list cell)) : list (string * list cell) :=
  match l with
  | [] => [(c, v)]
  | (k, x) :: l =>
      if decide (k = c) then (k, v) :: l else (k, x) :: alist_assign c v l
  end.

(** [df.assign] with one keyword [c=v]: a new column goes last, an
    existing one is overwritten in place. *)
Definition assign (c : string) (v : list cell) (df : DataFrame) : DataFrame :=
  {| index := index df; cols := alist_assign c v (cols df) |}.

(** [df.assign] with [c=x] for a scalar [x], repeated down the rows. *)
Definition assign_scalar (c : string) (x : cell) (df : DataFrame) : DataFrame :=
  assign c (replicate (length (index df)) x) df.

(** [df.drop(columns=names)] *)
Definition drop (names : list string) (df : DataFrame) : DataFrame :=
  {| index := index df;
     cols := filter (λ kv, kv.1 ∉ names) (cols df) |}.

(** [str] of a label, as [Index.astype(str)] applies it. *)
Definition label_str (l : label) : string :=
  match l with
  | LInt z => pretty z
  | LStr s => s
  end.

(** [Series.isnull()] on one cell: [None] and NaN are null. *)
Definition isnull (c : cell) : bool :=
  match c with
  | CNone | CNum NaN => true
  | _ => false
  end.

Fixpoint mask_filter {A} (mask : list bool) (l : list A) : list A :=
  match mask, l with
  | true :: mask, x :: l => x :: mask_filter mask l
  | false :: mask, _ :: l => mask_filter mask l
  | _, _ => []
  end.

(** [df[mask]] for a boolean mask over the rows. *)
Definition select_rows (mask : list bool) (df : DataFrame) : DataFrame :=
  {| index := mask_filter mask (index df);
     cols := prod_map id (mask_filter mask) <$> cols df |}.

(** [df.empty]: some axis has length zero. *)
Definition empty (df : DataFrame) : bool :=
  bool_decide (index df = []) || bool_decide (cols df = []).

(** The default index of a frame of [n] rows: [0 .. n-1]. *)
Definition RangeIndex (n : nat) : list label :=
  (λ i, LInt (Z.of_nat i)) <$> seq 0 n.

(** The invariant of every frame: distinct column names, and columns as
    long as the index. *)
Definition well_formed (df : DataFrame) : Prop :=
  NoDup (columns df) ∧ Forall (λ kv, length kv.2 = length (index df)) (cols df).

End pandas.

(** ** session.py *)

(** [needle in hay] for two [str]. *)
Fixpoint str_in (needle hay : string) : bool :=
  String.prefix needle hay
  || match hay with
     | EmptyString => false
     | String _ hay' => str_in needle hay'
     end.

(** Python's truth value of an object, as [if x:] tests it. *)
Class Truthy (A : Type) := truth : A → bool.
Global Hint Mode Truthy ! : typeclass_instances.

Global Instance option_truthy `{Truthy A} : Truthy (option A) := λ o,
  match o with
  | None => false
  | Some x => truth x
  end.

Global Instance list_truthy {A} : Truthy (list A) := λ l,
  match l with
  | [] => false
  | _ => true
  end.

(** An object of a class that defines neither [__bool__] nor [__len__]. *)
Definition plain_object_truthy {A} : Truthy A := λ _, true.

Module session.
Import pandas.

(** *** Data normalisation (static methods) *)

(** One turn of the double loop of [_point_age_time_to_interval]; the
    guard makes sure [data[at]] is there. *)
Definition point_to_interval_step (data : DataFrame) (at_lu : string * string)
  : DataFrame :=
  let '(at_, lu) := at_lu in
  if negb (has_column (at_ +:+ "_" +:+ lu) data) && has_column at_ data
  then assign (at_ +:+ "_" +:+ lu) (getitem data at_) data
  else data.

(** [for at in ["age", "time"]: for lu in ["lower", "upper"]] *)
Definition at_lu_pairs : list (string * string) :=
  at_ ← ["age"; "time"]; lu ← ["lower"; "upper"]; [(at_, lu)].

(** [{"age", "time"} & set(data.columns)] *)
Definition point_columns (data : DataFrame) : list string :=
  filter (λ c, c ∈ columns data) ["age"; "time"].

Definition _point_age_time_to_interval (data : option DataFrame)
  : option DataFrame :=
  match data with
  | None => None
  | Some data =>
      let data := foldl point_to_interval_step data at_lu_pairs in
      Some (drop (point_columns data) data)
  end.

Section amend.
(** [str] of a frame, which the f-string of the error message embeds. *)
Variable frame_str : DataFrame → string.

Definition _amend_data_input (data : option DataFrame) : result DataFrame :=
  match _point_age_time_to_interval data with
  | None =>
      Raise (AttributeError "'NoneType' object has no attribute 'columns'")
  | Some data =>
      data ←r
        (if negb (has_column "name" data)
         then Ok (assign "name" (CStr ∘ label_str <$> index data) data)
         else
           let null_names := select_rows (isnull <$> getitem data "name") data in
           if negb (empty null_names)
           then Raise (RuntimeError
                  ("There are some data values that lack data names. "
                   +:+ frame_str null_names))
           else Ok data);
      let data :=
        if negb (has_column "hold_out" data)
        then assign_scalar "hold_out" (CNum (int 0)) data
        else data in
      Ok (foldl (λ data additional,
                   if negb (has_column additional data)
                   then assign_scalar additional (CNum NaN) data
                   else data)
                data ["nu"; "eta"])
  end.
End amend.

(** *** The session and the external process *)

(** An element of a command: a string, or an int that [str] renders. *)
Inductive arg :=
| str_arg (s : string)
| int_arg (z : Z).

Definition str (a : arg) : string :=
  match a with
  | str_arg s => s
  | int_arg z => pretty z
  end.

(** [repr] of an element (of a string that needs no escape) and of the
    command list, as the debug message embeds it. *)
Definition repr_arg (a : arg) : string :=
  match a with
  | str_arg s => "'" +:+ s +:+ "'"
  | int_arg z => pretty z
  end.

Definition repr_command (command : list arg) : string :=
  "[" +:+ String.concat ", " (repr_arg <$> command) +:+ "]".

Section Session.
(** The collaborators whose code is elsewhere: the model and variable
    containers, [Model.check_alignment], and the [COMMAND_IO] table. *)
Context {Model Var Misalignment : Type}.
Context `{!Truthy Var, !Truthy Misalignment}.
Variable check_alignment : Model → Var → Misalignment.
Variable str_misalignment : Misalignment → string.
Variable random_effect : Model → bool.
Variable scale_set_by_user : Model → bool.
Variable scale : Model → Var.
Variable COMMAND_IO : arg → option (list string).
Variable frame_str : DataFrame → string.
(** [self._filename] *)
Variable filename : string.

(** What a session does to the world, in order: writes to the store
    wrapper, the life cycle of the db file, the external process and the
    two logs. *)
Inductive event :=
| set_model (model : Model)
| set_option
| set_data (data : option DataFrame)
| set_start_var (v : Var)
| set_scale_var (v : Var)
| set_truth_var (v : option Var)
| assign_model_scale (model : Model) (v : Var)
| flush
| close_db
| reopen_db
| run_process (argv : list string)
| refresh (tables : list string)
| codelog_debug (msg : string)
| mathlog_info (msg : string)
| mathlog_warning (msg : string).

Definition trace := list event.

(** The world answers from the history so far: the external process
    with its return code, stdout and stderr, the store with the messages
    of its log table and with the variables Dismod-AT wrote. *)
Variable run_with_logging : trace → list string → Z * string * string.
Variable log_message : trace → list string.
Variable fit_var : trace → Var.
Variable scale_var : trace → Var.

(** A method: from the history to an outcome and the history after. *)
Definition M (A : Type) : Type := trace → result A * trace.

Definition ret {A} (a : A) : M A := λ t, (Ok a, t).
Definition raise {A} (e : exn) : M A := λ t, (Raise e, t).
Definition bind {A B} (m : M A) (k : A → M B) : M B := λ t,
  match m t with
  | (Ok a, t') => k a t'
  | (Raise e, t') => (Raise e, t')
  end.
Definition emit (e : event) : M () := λ t, (Ok (), (t ++ [e])%list).
Definition ask {A} (f : trace → A) : M A := λ t, (Ok (f t), t).
Definition lift {A} (r : result A) : M A := λ t, (r, t).

Notation "x ←m e ; k" := (bind e (λ x, k))
  (at level 100, e at next level, k at level 200, right associativity).
Notation "e ;;m k" := (bind e (λ _, k))
  (at level 100, k at level 200, right associativity).

Definition oom_sentinel : string := "std:bad_alloc".
Definition max_iter_sentinel : string :=
  "Maximum Number of Iterations Exceeded".

Definition _check_dismod_command (command stdout stderr : string) : M () :=
  log ←m ask log_message;
  if match last log with
     | None => true
     | Some message => negb (str_in ("end " +:+ command) message)
     end
  then
    if str_in oom_sentinel stdout || str_in oom_sentinel stderr
    then raise (DismodATException "Dismod-AT ran out of memory")
    else if str_in max_iter_sentinel stdout || str_in max_iter_sentinel stderr
    then emit (mathlog_warning "Dismod-AT exceeded iterations")
    else raise (DismodATException
           ("Dismod-AT failed to complete '" +:+ command +:+ "' command"))
  else ret ().

(** [_run_dismod(command)], for the non-empty [command = [c0] + rest]. *)
Definition _run_dismod (c0 : arg) (rest : list arg) : M (string * string) :=
  emit flush ;;m
  emit (codelog_debug ("Running Dismod-AT " +:+ repr_command (c0 :: rest))) ;;m
  emit close_db ;;m
  let str_command := str <$> c0 :: rest in
  let argv := (["dmdismod"; filename] ++ str_command)%list in
  completed ←m ask (λ t, run_with_logging t argv);
  let '(return_code, stdout, stderr) := completed in
  emit (run_process argv) ;;m
  emit reopen_db ;;m
  _check_dismod_command (str c0) stdout stderr ;;m
  (if bool_decide (return_code = 0%Z) then ret ()
   else raise (AssertionError ("return code is " +:+ pretty return_code))) ;;m
  match COMMAND_IO c0 with
  | Some output => emit (refresh output)
  | None => ret ()
  end ;;m
  ret (stdout, stderr).

Definition setup_model_for_fit (model : Model) (data : option DataFrame)
    (initial_guess : option Var) : M () :=
  let data := _point_age_time_to_interval data in
  emit (set_model model) ;;m
  emit set_option ;;m
  emit (set_data data) ;;m
  _run_dismod (str_arg "init") [] ;;m
  if scale_set_by_user model
  then emit (set_scale_var (scale model))
  else match initial_guess with
       | Some guess => emit (set_scale_var guess)
       | None => v ←m ask scale_var; emit (assign_model_scale model v)
       end.

Record FitResult := {
  _fit_var : Var;
  dismod_out : string;
  dismod_err : string;
}.

Record SimulateResult := {
  _count : Z;
  _model : Model;
  _data : DataFrame;
}.

Definition _fit (fit_level : string) (model : Model)
    (data : option DataFrame) (initial_guess : option Var) : M FitResult :=
  match initial_guess with
  | Some guess =>
      if truth guess
      then
        let misalignment := check_alignment model guess in
        if truth misalignment
        then raise (RuntimeError
               ("Model and initial guess are misaligned: "
                +:+ str_misalignment misalignment +:+ "."))
        else ret ()
      else ret ()
  | None => ret ()
  end ;;m
  data ←m lift (_amend_data_input frame_str data);
  setup_model_for_fit model (Some data) initial_guess ;;m
  match initial_guess with
  | Some guess =>
      emit (mathlog_info "Setting initial value for search from user argument.") ;;m
      emit (set_start_var guess)
  | None => ret ()
  end ;;m
  dm ←m _run_dismod (str_arg "fit") [str_arg fit_level];
  let '(dm_out, dm_err) := dm in
  v ←m ask fit_var;
  ret {| _fit_var := v; dismod_out := dm_out; dismod_err := dm_err |}.

Definition fit (model : Model) (data : option DataFrame)
    (initial_guess : option Var) : M FitResult :=
  if random_effect model
  then emit (mathlog_info "Running fit both.") ;;m
       _fit "both" model data initial_guess
  else emit (mathlog_info "Running fit fixed.") ;;m
       _fit "fixed" model data initial_guess.

Definition fit_fixed (model : Model) (data : option DataFrame)
    (initial_guess : option Var) : M FitResult :=
  _fit "fixed" model data initial_guess.

Definition fit_random (model : Model) (data : option DataFrame)
    (initial_guess : option Var) : M FitResult :=
  _fit "random" model data initial_guess.

Definition simulate (model : Model) (data : option DataFrame)
    (fit_var : option Var) (simulate_count : Z) : M SimulateResult :=
  data ←m lift (_amend_data_input frame_str data);
  match fit_var with
  | Some v =>
      if truth v
      then
        let misalignment := check_alignment model v in
        if truth misalignment
        then raise (RuntimeError
               ("Model and fit var are misaligned: "
                +:+ str_misalignment misalignment +:+ "."))
        else ret ()
      else ret ()
  | None => ret ()
  end ;;m
  setup_model_for_fit model (Some data) fit_var ;;m
  emit (set_truth_var fit_var) ;;m
  _run_dismod (str_arg "simulate") [int_arg simulate_count] ;;m
  ret {| _count := simulate_count; _model := model; _data := data |}.

(** The points of one [_run_dismod]: the command line, the history when
    the process is started and when its outcome is checked, and the
    history once the output tables are refreshed. *)
Definition argv_of (c0 : arg) (rest : list arg) : list string :=
  (["dmdismod"; filename] ++ (str <$> c0 :: rest))%list.

Definition at_start (c0 : arg) (rest : list arg) (t : trace) : trace :=
  (t ++ [flush;
         codelog_debug ("Running Dismod-AT " +:+ repr_command (c0 :: rest));
         close_db])%list.

Definition at_check (c0 : arg) (rest : list arg) (t : trace) : trace :=
  (at_start c0 rest t ++ [run_process (argv_of c0 rest); reopen_db])%list.

Definition refreshed (c0 : arg) (t : trace) : trace :=
  match COMMAND_IO c0 with
  | Some output => (t ++ [refresh output])%list
  | None => t
  end.
End Session.

(** The log is empty or its last message does not hold ["end <command>"]. *)
Definition lacks_end_line (command : string) (log : list string) : bool :=
  match last log with
  | None => true
  | Some message => negb (str_in ("end " +:+ command) message)
  end.

(** [sentinel in stdout or sentinel in stderr] *)
Definition has_sentinel (sentinel stdout stderr : string) : bool :=
  str_in sentinel stdout || str_in sentinel stderr.

End session.

(** ** Vocabulary for the normalised table *)

Module normalisation.
Import pandas session.

(** [df[c]] when the column may be missing. *)
Definition column (c : string) (df : DataFrame) : option (list cell) :=
  alist_lookup c (cols df).

(** The column [c] once the point columns have filled the missing interval
    columns. *)
Definition intervals (df : DataFrame) (c : string) : option (list cell) :=
  match column c df with
  | Some v => Some v
  | None =>
      if decide (c = "age_lower") then column "age" df
      else if decide (c = "age_upper") then column "age" df
      else if decide (c = "time_lower") then column "time" df
      else if decide (c = "time_upper") then column "time" df
      else None
  end.

(** What [_point_age_time_to_interval] returns for a frame. *)
Definition converted (df : DataFrame) : DataFrame :=
  let data := foldl point_to_interval_step df at_lu_pairs in
  drop (point_columns data) data.

(** The column [c] of the normalised table, in the words of the
    specification. *)
Definition expected (df : DataFrame) (c : string) : option (list cell) :=
  if decide (c = "age") then None
  else if decide (c = "time") then None
  else match column c df with
       | Some v => Some v
       | None =>
           if decide (c = "age_lower") then column "age" df
           else if decide (c = "age_upper") then column "age" df
           else if decide (c = "time_lower") then column "time" df
           else if decide (c = "time_upper") then column "time" df
           else if decide (c = "name")
             then Some (CStr ∘ label_str <$> index df)
           else if decide (c = "hold_out")
             then Some (replicate (length (index df)) (CNum (int 0)))
           else if decide (c = "nu")
             then Some (replicate (length (index df)) (CNum NaN))
           else if decide (c = "eta")
             then Some (replicate (length (index df)) (CNum NaN))
           else None
       end.

(** The tail of [_amend_data_input], after the name column is settled. *)
Definition with_defaults (data : DataFrame) : DataFrame :=
  let data :=
    if negb (has_column "hold_out" data)
    then assign_scalar "hold_out" (CNum (int 0)) data
    else data in
  foldl (λ data additional,
           if negb (has_column additional data)
           then assign_scalar additional (CNum NaN) data
           else data)
        data ["nu"; "eta"].

(** A frame in normal form: no point columns, every optional column
    there, no null name. *)
Definition normal_form (d : DataFrame) : Prop :=
  has_column "age" d = false ∧ has_column "time" d = false
  ∧ has_column "name" d = true ∧ has_column "hold_out" d = true
  ∧ has_column "nu" d = true ∧ has_column "eta" d = true
  ∧ mask_filter (isnull <$> getitem d "name") (index d) = [].

(** The names a default index gives the rows: their positions. *)
Definition row_positions (df : DataFrame) : list cell :=
  CStr ∘ label_str <$> RangeIndex (length (index df)).

End normalisation.

(** ** A small world to run the session in *)

Module session_examples.
Import pandas session.

(** The external process ends with the given code after the solver has
    hit its iteration limit. *)
Definition iterations_world (code : Z)
  : @trace () () → list string → Z * string * string :=
  λ _ _, (code, "EXIT: Maximum Number of Iterations Exceeded.", "").

(** A log table whose last message is not the end of a command. *)
Definition unfinished_log : @trace () () → list string :=
  λ _, ["begin fit fixed"].

Definition no_tables : arg → option (list string) := λ _, None.

(** An alignment check that reports one rate missing from the guess. *)
Definition misaligned_keys (_ _ : ()) : list string := ["rate.iota"].

Definition str_keys (keys : list string) : string := String.concat ", " keys.

(** One data row whose name is null. *)
Definition unnamed_row : DataFrame :=
  {| index := [LInt 0];
     cols := [("integrand", [CStr "prevalence"]); ("name", [CNone])] |}.

End session_examples.

(** ** AgeTimeGrid *)

Module age_time_grid.

(** Modelled from the spec: the module [cascade.model.age_time_grid],
    whose class [AgeTimeGrid] the tests exercise, is not among the
    sources.  This module is the grid of sections 3, 4.2 and 7 of the
    specification: the breakpoints, the ordered column names, one row per
    (age, time) pair holding one cell per column, and the three-row mulstd
    table; construction, selection by point or closed range, and
    assignment.  These are the errors section 7 names for it. *)
Inductive error :=
| RangeError
| ShapeError
| TypeError.

Global Instance error_eq_dec : EqDecision error.
Proof. solve_decision. Defined.

(** The three kinds of prior a mulstd row stands for. *)
Inductive prior_kind := value_kind | dage_kind | dtime_kind.

(** What is passed for [ages] or [times]: a sequence of numbers, or a
    number that is no sequence. *)
Inductive breakpoints_arg :=
| sequence (l : list number)
| scalar (x : number).

(** What is passed for [columns]: the names, or one name as shorthand. *)
Inductive columns_arg :=
| names (l : list string)
| one_name (s : string).

(** One bound of a subscript: an exact point, or a slice either end of
    which may be left open. *)
Inductive key :=
| point (x : number)
| slice (lo hi : option number).

Section grid.
(** What a cell holds once written; an unwritten cell is [None]. *)
Context {V : Type}.

Record row := {
  age : number;
  time : number;
  cells : list (option V);
}.

Record mulstd_row := {
  kind : prior_kind;
  mulstd_cells : list (option V);
}.

Record AgeTimeGrid := {
  ages : list number;
  times : list number;
  columns : list string;
  grid : list row;
  mulstd : list mulstd_row;
}.

(** What is assigned: one scalar, or an iterable whose entries go to
    the columns in their order.  Any iterable will do: the test
    [test_set_regions_single_column] assigns the dict [{21: "hiya"}] and
    reads 21, the dict being iterated over its keys.  The mapping keyed
    by column name of section 4.2 is therefore left out. *)
Inductive value :=
| scalar_value (x : V)
| sequence_value (l : list V).

(** A dict as a value: the iterable of its keys. *)
Definition dict_value {W} (d : list (V * W)) : value :=
  sequence_value d.*1.

Definition columns_of (c : columns_arg) : list string :=
  match c with
  | names l => l
  | one_name s => [s]
  end.

Definition unset_row (width : nat) (at_ : number * number) : row :=
  {| age := at_.1; time := at_.2; cells := replicate width None |}.

(** Modelled from the spec: the constructor of [AgeTimeGrid], missing
    with its module.  Construct(ages, times, columns) produces the full
    Cartesian grid plus the 3-row mulstd side table, all columns
    initialized to an unset marker; construction with non-sequence
    scalars fails with a type error. *)
Definition construct (ages times : breakpoints_arg) (columns : columns_arg)
  : error + AgeTimeGrid :=
  match ages, times with
  | sequence ages, sequence times =>
      let columns := columns_of columns in
      let width := length columns in
      inr {| ages := ages; times := times; columns := columns;
             grid := unset_row width <$> cprod ages times;
             mulstd :=
               (λ k, {| kind := k; mulstd_cells := replicate width None |})
               <$> [value_kind; dage_kind; dtime_kind] |}
  | _, _ => inl TypeError
  end.

(** [x == y] on numbers. *)
Definition num_eq (x y : number) : bool := num_le x y && num_le y x.

(** A breakpoint is selected by a point it equals, and by a slice when
    it lies in the closed interval; an open end does not restrict. *)
Definition selects (k : key) (x : number) : bool :=
  match k with
  | point p => num_eq x p
  | slice lo hi =>
      from_option (λ lo, num_le lo x) true lo
      && from_option (λ hi, num_le x hi) true hi
  end.

Definition selects_row (ka kt : key) (r : row) : bool :=
  selects ka (age r) && selects kt (time r).

(** The rows [grid[ka, kt]] selects. *)
Definition selected (g : AgeTimeGrid) (ka kt : key) : list row :=
  filter (λ r, selects_row ka kt r = true) (grid g).

(** Modelled from the spec: [AgeTimeGrid.__getitem__], missing with its
    module.  [grid[ka, kt]] returns the selected rows; a selection that
    matches zero rows is a range error. *)
Definition getitem (g : AgeTimeGrid) (ka kt : key) : error + list row :=
  match selected g ka kt with
  | [] => inl RangeError
  | rows => inr rows
  end.

(** An iterable must bring one entry per column. *)
Definition fits (g : AgeTimeGrid) (v : value) : bool :=
  match v with
  | sequence_value l => bool_decide (length l = length (columns g))
  | _ => true
  end.

(** The cells of a selected row after the assignment: a scalar goes to
    every column, the entries of an iterable to the columns in their
    order. *)
Definition written (g : AgeTimeGrid) (v : value) : list (option V) :=
  match v with
  | scalar_value x => replicate (length (columns g)) (Some x)
  | sequence_value l => Some <$> l
  end.

Definition write_row (g : AgeTimeGrid) (ka kt : key) (v : value) (r : row)
  : row :=
  if selects_row ka kt r
  then {| age := age r; time := time r; cells := written g v |}
  else r.

(** Modelled from the spec: [AgeTimeGrid.__setitem__], missing with its
    module.  [grid[ka, kt] = v] fails with a range error if zero rows
    match (the test's assignment outside the bounds does not get to
    assign, whatever the value), fails with a shape error if a sequence
    value's length does not equal the column count, and else writes the
    matched rows. *)
Definition setitem (g : AgeTimeGrid) (ka kt : key) (v : value)
  : error + AgeTimeGrid :=
  match selected g ka kt with
  | [] => inl RangeError
  | _ =>
      if fits g v
      then inr {| ages := ages g; times := times g; columns := columns g;
                  grid := write_row g ka kt v <$> grid g;
                  mulstd := mulstd g |}
      else inl ShapeError
  end.

(** The (age, time) pair of each row, in row order. *)
Definition keys (g : AgeTimeGrid) : list (number * number) :=
  (λ r, (age r, time r)) <$> grid g.

(** The invariant of a grid: its rows are the Cartesian product of its
    breakpoints, each as wide as the columns. *)
Definition well_formed (g : AgeTimeGrid) : Prop :=
  keys g = cprod (ages g) (times g)
  ∧ Forall (λ r, length (cells r) = length (columns g)) (grid g).

End grid.

Arguments row : clear implicits.
Arguments mulstd_row : clear implicits.
Arguments AgeTimeGrid : clear implicits.
Arguments value : clear implicits.

(** The grid of the specification's example scenario, as constructed from
    ages 0, 1, 10, times 2000, 2010 and the one column [var_id]. *)
Definition example_grid : AgeTimeGrid Z :=
  {| ages := [int 0; int 1; int 10];
     times := [int 2000; int 2010];
     columns := ["var_id"];
     grid := unset_row 1 <$> cprod [int 0; int 1; int 10] [int 2000; int 2010];
     mulstd := (λ k, {| kind := k; mulstd_cells := [None] |})
               <$> [value_kind; dage_kind; dtime_kind] |}.

End age_time_grid.


(** ** More of priors.py: the arguments of a call, the checks in their
       order, and what [parameters] can tell apart *)

Module prior_checks.
Import priors prior_calls.

(** The [eta] and [name] arguments of a call. *)
Definition arg_eta (c : prior_call) : option number :=
  match c with
  | call_log_gaussian _ _ _ eta _ _ _ | call_log_students _ _ _ eta _ _ _ =>
      Some eta
  | _ => None
  end.

Definition arg_name (c : prior_call) : option string :=
  match c with
  | call_uniform _ _ _ n | call_gaussian _ _ _ _ _ n
  | call_students _ _ _ _ _ n | call_log_gaussian _ _ _ _ _ _ n
  | call_log_students _ _ _ _ _ _ n => n
  end.

(** The message of the first check that fails, in the order every
    constructor runs them: [_validate_bounds], then
    [_validate_standard_deviation], then [_validate_nu]. *)
Definition first_error (c : prior_call) : option string :=
  if negb (num_le (arg_lower c) (arg_mean c)
           && num_le (arg_mean c) (arg_upper c))
  then Some "Bounds are inconsistent"
  else if negative (arg_standard_deviation c)
  then Some "Standard deviation must be positive"
  else if negative (arg_nu c)
  then Some "Nu must be positive"
  else None.

(** An instance with its class forgotten within its family and its name
    dropped. *)
Definition erase_class (p : Prior) : Prior :=
  match p with
  | uniform_obj _ lo up m => uniform_obj None lo up m
  | gaussian_obj _ _ lo up m sd => gaussian_obj GaussianPrior_cls None lo up m sd
  | students_obj _ lo up m sd nu => students_obj None lo up m sd nu
  | log_gaussian_obj _ _ lo up m sd eta =>
      log_gaussian_obj LogGaussianPrior_cls None lo up m sd eta
  | log_students_obj _ lo up m sd nu eta =>
      log_students_obj None lo up m sd nu eta
  end.

End prior_checks.

(** ** More of covariates.py: [CovariateColumn.__eq__] and what a column
       keeps *)

Module covariate_columns.
Import covariates.

(** [x == y] on floats: NaN equals nothing, itself included. *)
Definition float_eq (x y : number) : bool :=
  negb (is_nan x) && bool_decide (x = y).

(** [x == y] where each is [None] or a float. *)
Definition optional_float_eq (x y : option number) : bool :=
  match x, y with
  | None, None => true
  | Some x, Some y => float_eq x y
  | _, _ => false
  end.

(** [CovariateColumn.__eq__], for [other] a column:
    [self._name == other.name and self._reference == other._reference
     and self._max_difference == other._max_difference]. *)
Definition __eq__ (self other : CovariateColumn) : bool :=
  bool_decide (_name self = _name other)
  && optional_float_eq (_reference self) (_reference other)
  && optional_float_eq (_max_difference self) (_max_difference other).

(** The conversion [__init__] applies to an optional argument: [None]
    stays, a value goes through [float]. *)
Definition optional_float {Value} (float : Value → result number)
    (v : option Value) : result (option number) :=
  match v with
  | None => Ok None
  | Some v => rbind (float v) (λ x, Ok (Some x))
  end.

(** The reference or the cutoff of the column is NaN. *)
Definition holds_nan (c : CovariateColumn) : bool :=
  from_option is_nan false (_reference c)
  || from_option is_nan false (_max_difference c).

(** What construction and the setters keep: a name that is a non-empty
    string, and a cutoff that is absent or not [<= 0]. *)
Definition valid (c : CovariateColumn) : Prop :=
  (∃ s, _name c = Some s ∧ s ≠ "")
  ∧ ∀ d, _max_difference c = Some d → num_le d (int 0) = false.

(** A small universe of argument values to run a column in: strings and
    floats, with the builtins on them. *)
Inductive py_value :=
| py_str (s : string)
| py_float (x : number).

Definition float_of (v : py_value) : result number :=
  match v with
  | py_float x => Ok x
  | py_str s =>
      Raise (ValueError ("could not convert string to float: '" +:+ s +:+ "'"))
  end.

Definition as_str_of (v : py_value) : option string :=
  match v with
  | py_str s => Some s
  | py_float _ => None
  end.

Definition str_of (v : py_value) : string :=
  match v with
  | py_str s => s
  | py_float _ => "<float>"
  end.

End covariate_columns.

(** ** More of session.py: [sample], and what a history shows *)

Module session_more.
Import pandas session.

Section Session.
Context {Model Var Misalignment Samples : Type}.
Context `{!Truthy Var, !Truthy Misalignment}.
Variable COMMAND_IO : arg → option (list string).
Variable filename : string.
Variable run_with_logging : @trace Model Var → list string → Z * string * string.
Variable log_message : @trace Model Var → list string.
(** [self._objects.samples], as the store holds them. *)
Variable samples : @trace Model Var → Samples.

(** [Session.sample] *)
Definition sample (simulate_result : @SimulateResult Model) : M Samples :=
  bind (_run_dismod COMMAND_IO filename run_with_logging log_message
          (str_arg "sample")
          [str_arg "simulate"; int_arg (_count simulate_result)])
       (λ _, ask samples).

(** What a history shows: the command lines of the processes started,
    the tables written as data, the output tables refreshed, whether the
    db file is closed at its end, and whether every process in it was
    started while the db file was closed. *)
Definition invocations (t : @trace Model Var) : list (list string) :=
  omap (λ e, match e with run_process argv => Some argv | _ => None end) t.

Definition data_written (t : @trace Model Var) : list (option DataFrame) :=
  omap (λ e, match e with set_data d => Some d | _ => None end) t.

Definition refreshes (t : @trace Model Var) : list (list string) :=
  omap (λ e, match e with refresh o => Some o | _ => None end) t.

Definition db_closed (t : @trace Model Var) : bool :=
  foldl (λ closed e, match e with
                     | close_db => true
                     | reopen_db => false
                     | _ => closed
                     end) false t.

(** One event seen by a watcher that holds whether the db file is
    closed and whether every process so far was started with it closed. *)
Definition watch (seen : bool * bool) (e : @event Model Var) : bool * bool :=
  match e with
  | close_db => (true, seen.2)
  | reopen_db => (false, seen.2)
  | run_process _ => (seen.1, seen.2 && seen.1)
  | _ => seen
  end.

Definition runs_with_db_closed (t : @trace Model Var) : bool :=
  (foldl watch (false, true) t).2.

(** The test that stops [_fit] and [simulate]: the guess is true as a
    Python object and [check_alignment] reports a misalignment. *)
Definition misaligned (check_alignment : Model → Var → Misalignment)
    (model : Model) (guess : option Var) : bool :=
  match guess with
  | Some guess => truth guess && truth (check_alignment model guess)
  | None => false
  end.
End Session.

(** A world in which every command completes: the log ends with the end
    line of the command last run, and the process exits with code 0
    after the solver has reported its optimum. *)
Definition completed_log (t : @trace () ()) : list string :=
  match last (invocations t) with
  | Some (_ :: _ :: command :: _) => ["begin " +:+ command; "end " +:+ command]
  | _ => []
  end.

Definition solver_world : @trace () () → list string → Z * string * string :=
  λ _ _, (0%Z, "EXIT: Optimal Solution Found.", "").

(** Two data rows given by point ages and point times. *)
Definition point_rows : DataFrame :=
  {| index := [LInt 0; LInt 1];
     cols := [("age", [CNum (int 5); CNum (int 50)]);
              ("time", [CNum (int 2000); CNum (int 2000)]);
              ("meas_value", [CNum (int 1); CNum (int 2)])] |}.

End session_more.

(** ** The columns of the normalised table *)

Module normalisation_more.
Import pandas session.

(** The columns after [data.assign(c=...)] under the guard
    [c not in data.columns]: the name goes last unless it is there. *)
Definition add_missing (l : list string) (c : string) : list string :=
  if decide (c ∈ l) then l else (l ++ [c])%list.

(** The columns normalisation adds to a frame, in the order it adds
    them: the interval columns of the axes given as points, then the
    optional columns. *)
Definition added (df : DataFrame) : list string :=
  filter (λ c, c ∉ columns df)
    ((if has_column "age" df then ["age_lower"; "age_upper"] else [])
     ++ (if has_column "time" df then ["time_lower"; "time_upper"] else [])
     ++ ["name"; "hold_out"; "nu"; "eta"])%list.

End normalisation_more.

(** ** executor/no_covariate_main.py: splitting a bundle *)

Module no_covariate_main.
Import pandas.

(** One element of [bundle["measure"] == measure], for a string
    [measure]: true on the cell that holds this string. *)
Definition eq_measure (measure : string) (c : cell) : bool :=
  match c with
  | CStr s => bool_decide (s = measure)
  | _ => false
  end.

(** [choose_constraints(bundle, measure)]; [None] is the [KeyError] of a
    bundle without a [measure] column. *)
Definition choose_constraints (bundle : DataFrame) (measure : string)
  : option (DataFrame * DataFrame) :=
  if has_column "measure" bundle
  then
    let observations :=
      select_rows (negb ∘ eq_measure measure <$> getitem bundle "measure")
        bundle in
    let constraints :=
      select_rows (eq_measure measure <$> getitem bundle "measure") bundle in
    Some (observations, constraints)
  else None.

(** [df.iterrows()]: each label with the cells of its row, one per
    column. *)
Fixpoint rows_of (index : list label) (cols : list (list cell))
  : list (label * list (option cell)) :=
  match index with
  | [] => []
  | l :: index => (l, head <$> cols) :: rows_of index (tail <$> cols)
  end.

Definition iterrows (df : DataFrame) : list (label * list (option cell)) :=
  rows_of (index df) (cols df).*2.

(** A bundle of three rows, one of them a constraint and one without a
    measure. *)
Definition bundle_rows : DataFrame :=
  {| index := [LInt 0; LInt 1; LInt 2];
     cols := [("measure", [CStr "prevalence"; CStr "mtother"; CNone]);
              ("mean", [CNum (int 1); CNum (int 2); CNum (int 3)])] |}.

End no_covariate_main.

(** * Properties *)

Lemma Ok_inj {A} (a b : A) : Ok a = Ok b → a = b.
Proof. by intros [= ->]. Qed.

(** ** Comparison of numbers *)

(** A strict comparison that holds excludes the reverse weak one. *)
Lemma num_lt_not_le x y : num_lt x y = true → num_le y x = false.
Proof.
  destruct x, y; simpl; try done.
  intros H. by apply negb_true_iff in H.
Qed.

(** Away from NaN the order is total: exactly one of [x <= y], [y < x]. *)
Lemma num_le_or_lt x y :
  is_nan x = false → is_nan y = false → num_le x y = negb (num_lt y x).
Proof.
  destruct x, y; simpl; try done.
  intros _ _. by rewrite negb_involutive.
Qed.

(** ** Properties of priors.py *)

Module priors_facts.
Import priors prior_calls.

Lemma validate_bounds_ok lo m up :
  num_le lo m = true → num_le m up = true → _validate_bounds lo m up = Ok ().
Proof. intros H1 H2. unfold _validate_bounds. by rewrite H1, H2. Qed.

Lemma validate_bounds_lower lo m up :
  num_gt lo m = true →
  _validate_bounds lo m up = Raise (ValueError "Bounds are inconsistent").
Proof.
  intros H. unfold _validate_bounds.
  by rewrite (num_lt_not_le _ _ H).
Qed.

Lemma validate_bounds_upper lo m up :
  num_gt m up = true →
  _validate_bounds lo m up = Raise (ValueError "Bounds are inconsistent").
Proof.
  intros H. unfold _validate_bounds.
  rewrite (num_lt_not_le _ _ H). by rewrite andb_false_r.
Qed.

Lemma validate_standard_deviation_ok sd :
  num_le (int 0) sd = true → _validate_standard_deviation sd = Ok ().
Proof.
  intros H. unfold _validate_standard_deviation.
  destruct (num_lt sd (int 0)) eqn:E; [|done].
  apply num_lt_not_le in E. congruence.
Qed.

Lemma validate_nu_ok nu :
  num_le (int 0) nu = true → _validate_nu nu = Ok ().
Proof.
  intros H. unfold _validate_nu.
  destruct (num_lt nu (int 0)) eqn:E; [|done].
  apply num_lt_not_le in E. congruence.
Qed.

(** Each validator either passes or raises [ValueError]. *)
Lemma validate_bounds_cases lo m up :
  _validate_bounds lo m up = Ok () ∨
  ∃ msg, _validate_bounds lo m up = Raise (ValueError msg).
Proof. unfold _validate_bounds. case (negb _); eauto. Qed.

Lemma validate_standard_deviation_cases sd :
  _validate_standard_deviation sd = Ok () ∨
  ∃ msg, _validate_standard_deviation sd = Raise (ValueError msg).
Proof. unfold _validate_standard_deviation. case (num_lt _ _); eauto. Qed.

Lemma validate_nu_cases nu :
  _validate_nu nu = Ok () ∨ ∃ msg, _validate_nu nu = Raise (ValueError msg).
Proof. unfold _validate_nu. case (num_lt _ _); eauto. Qed.

(** A constructor returns the complete object or raises [ValueError]:
    there is no third outcome. *)
Lemma construct_total c :
  construct c = Ok (object_of c) ∨ is_ValueError (construct c) = true.
Proof.
  destruct c; simpl;
    unfold UniformPrior, gaussian_init, StudentsTPrior, log_gaussian_init,
      LogStudentsTPrior;
    (destruct (validate_bounds_cases lower mean upper) as [->|[? ->]];
       [simpl|by right]);
    try (destruct (validate_standard_deviation_cases standard_deviation)
           as [->|[? ->]]; [simpl|by right]);
    try (destruct (validate_nu_cases nu) as [->|[? ->]]; [simpl|by right]);
    by left.
Qed.

Lemma construct_violated c :
  violated c = true → is_ValueError (construct c) = true.
Proof.
  unfold violated. rewrite !orb_true_iff.
  intros [[[H|H]|H]|H].
  - destruct c; simpl in *;
      unfold UniformPrior, gaussian_init, StudentsTPrior, log_gaussian_init,
        LogStudentsTPrior; by rewrite (validate_bounds_lower _ _ _ H).
  - destruct c; simpl in *;
      unfold UniformPrior, gaussian_init, StudentsTPrior, log_gaussian_init,
        LogStudentsTPrior; by rewrite (validate_bounds_upper _ _ _ H).
  - destruct c; simpl in H; try done;
      simpl; unfold gaussian_init, StudentsTPrior, log_gaussian_init,
        LogStudentsTPrior;
      (destruct (validate_bounds_cases lower mean upper) as [->|[? ->]];
         [simpl|done]);
      unfold _validate_standard_deviation; by rewrite H.
  - destruct c; simpl in H; try done;
      simpl; unfold StudentsTPrior, LogStudentsTPrior;
      (destruct (validate_bounds_cases lower mean upper) as [->|[? ->]];
         [simpl|done]);
      (destruct (validate_standard_deviation_cases standard_deviation)
         as [->|[? ->]]; [simpl|done]);
      unfold _validate_nu; by rewrite H.
Qed.

Lemma construct_within c :
  within c = true → construct c = Ok (object_of c).
Proof.
  unfold within. rewrite !andb_true_iff.
  intros [[[Hlo Hup] Hsd] Hnu].
  destruct c; simpl in *;
    unfold UniformPrior, gaussian_init, StudentsTPrior, log_gaussian_init,
      LogStudentsTPrior;
    rewrite (validate_bounds_ok _ _ _ Hlo Hup); simpl;
    try (rewrite (validate_standard_deviation_ok _ Hsd); simpl);
    try (rewrite (validate_nu_ok _ Hnu); simpl); done.
Qed.

(** [frozenset(d.items())] determines the dict. *)
Lemma frozenset_items_inj d1 d2 :
  frozenset_items d1 = frozenset_items d2 → d1 = d2.
Proof.
  intros H. apply map_eq. intros k. apply option_eq. intros v.
  rewrite <- !(elem_of_map_to_set_pair (C := gset (string * number))).
  unfold frozenset_items in H. by rewrite H.
Qed.

Lemma parameters_with_name n p : parameters (with_name n p) = parameters p.
Proof. by destruct p. Qed.

Lemma name_with_name n p : name (with_name n p) = n.
Proof. by destruct p. Qed.

Lemma density_with_name n p : density (with_name n p) = density p.
Proof. by destruct p. Qed.

Lemma eq_unfold p q :
  __eq__ p (a_Prior q) = true ↔ name p = name q ∧ parameters p = parameters q.
Proof.
  unfold __eq__. rewrite andb_true_iff, !bool_decide_eq_true. done.
Qed.

(** The density tag is not part of what [__eq__] compares: a Gaussian and
    a Laplace prior with the same numbers compare equal. *)
Lemma gaussian_laplace_compare_equal n lo up m sd :
  __eq__ (gaussian_obj GaussianPrior_cls n lo up m sd)
         (a_Prior (gaussian_obj LaplacePrior_cls n lo up m sd)) = true.
Proof. apply eq_unfold. done. Qed.

(** C3.  Constructing a prior of any class raises [ValueError], and builds
    no object, whenever [lower > mean], [mean > upper],
    [standard_deviation < 0] or [nu < 0]; with
    [lower <= mean <= upper], [standard_deviation >= 0] and [nu >= 0],
    boundaries included, it returns the complete object.  In particular
    [UniformPrior(mean=1, lower=0, upper=2)] and
    [GaussianPrior(mean=0, standard_deviation=0)] construct, and
    [UniformPrior(mean=5, lower=0, upper=2)] and
    [GaussianPrior(mean=0, standard_deviation=-1)] raise. *)
Theorem C3_prior_validation :
  (∀ c, violated c = true →
        is_ValueError (construct c) = true ∧ succeeded (construct c) = false)
  ∧ (∀ c, within c = true → construct c = Ok (object_of c))
  ∧ UniformPrior (int 1) (int 0) (int 2) None
      = Ok (uniform_obj None (int 0) (int 2) (int 1))
  ∧ GaussianPrior (int 0) (int 0) default_lower default_upper None
      = Ok (gaussian_obj GaussianPrior_cls None NegInf PosInf (int 0) (int 0))
  ∧ UniformPrior (int 5) (int 0) (int 2) None
      = Raise (ValueError "Bounds are inconsistent")
  ∧ GaussianPrior (int 0) (int (-1)) default_lower default_upper None
      = Raise (ValueError "Standard deviation must be positive").
Proof.
  split; [|split; [|by vm_compute]].
  - intros c Hc. pose proof (construct_violated c Hc) as H.
    split; [done|]. by destruct (construct c) as [|[]].
  - apply construct_within.
Qed.

(** The validation of C3 at a Student's t call with a negative [nu], and
    at a call whose three bounds coincide. *)
Lemma C3_prior_validation_witness :
  is_ValueError
    (construct (call_students (int 0) (int 1) (int (-3)) NegInf PosInf None))
    = true
  ∧ construct (call_students (int 2) (int 0) (int 0) (int 2) (int 2) None)
    = Ok (students_obj None (int 2) (int 2) (int 2) (int 0) (int 0)).
Proof.
  split.
  - apply (proj1 C3_prior_validation
             (call_students (int 0) (int 1) (int (-3)) NegInf PosInf None)).
    vm_compute. reflexivity.
  - apply (proj1 (proj2 C3_prior_validation)
             (call_students (int 2) (int 0) (int 0) (int 2) (int 2) None)).
    vm_compute. reflexivity.
Defined.

(** C2 as stated fails: two uniform priors with the same parameters and
    different names are not equal. *)
Lemma C2_counterexample :
  let p := uniform_obj None (int 0) (int 2) (int 1) in
  let q := uniform_obj (Some "iota") (int 0) (int 2) (int 1) in
  density p = density q
  ∧ parameters p = parameters q
  ∧ __eq__ p (a_Prior q) = false.
Proof. by repeat split. Qed.

(** C2, amended.  For two priors of the same kind with equal parameter
    sets: their hashes are equal whatever their names, and renaming a
    prior keeps its hash, so the name never affects the hash; equality
    compares the names as well, so the two are equal exactly when their
    names are equal. *)
Theorem C2_hash_ignores_name_eq_compares_it
    (hash : gset (string * number) → Z) (p q : Prior) :
  density p = density q →
  parameters p = parameters q →
  __hash__ hash p = __hash__ hash q
  ∧ (∀ n, __hash__ hash (with_name n p) = __hash__ hash p)
  ∧ __eq__ p (a_Prior q) = bool_decide (name p = name q).
Proof.
  intros _ Hpar. split; [|split].
  - unfold __hash__. by rewrite Hpar.
  - intros n. unfold __hash__. by rewrite parameters_with_name.
  - unfold __eq__. rewrite Hpar.
    by rewrite (bool_decide_eq_true_2 (parameters q = parameters q)),
      andb_true_r.
Qed.

Lemma C2_hash_ignores_name_eq_compares_it_witness :
  let p := gaussian_obj GaussianPrior_cls (Some "a") NegInf PosInf (int 0) (int 1) in
  let q := gaussian_obj GaussianPrior_cls (Some "b") NegInf PosInf (int 0) (int 1) in
  __hash__ (λ s, Z.of_nat (size s)) p = __hash__ (λ s, Z.of_nat (size s)) q
  ∧ (∀ n, __hash__ (λ s, Z.of_nat (size s)) (with_name n p)
          = __hash__ (λ s, Z.of_nat (size s)) p)
  ∧ __eq__ p (a_Prior q) = bool_decide (name p = name q).
Proof.
  intros p q.
  apply (C2_hash_ignores_name_eq_compares_it (λ s, Z.of_nat (size s)) p q);
    reflexivity.
Defined.

(** C9.  Whatever the hash function, there are two priors of the same
    kind with equal parameter sets and different names whose hashes agree
    while [==] answers false: equal hashes do not give equal priors. *)
Theorem C9_equal_hash_unequal_priors (hash : gset (string * number) → Z) :
  ∃ p q : Prior,
    density p = density q
    ∧ parameters p = parameters q
    ∧ name p ≠ name q
    ∧ __hash__ hash p = __hash__ hash q
    ∧ __eq__ p (a_Prior q) = false.
Proof.
  exists (uniform_obj None (int 0) (int 2) (int 1)),
         (uniform_obj (Some "iota") (int 0) (int 2) (int 1)).
  by repeat split.
Qed.

End priors_facts.

(** ** Properties of covariates.py *)

Module covariates_facts.
Import covariates.

Section max_difference.
Context {Value : Type}.
Variable float : Value → result number.
Variable str : Value → string.

(** [None] always clears the cutoff. *)
Lemma max_difference_set_None self :
  max_difference_set float str None self
  = (Ok (), {| _name := _name self; _reference := _reference self;
               _max_difference := None |}).
Proof. done. Qed.

(** A value whose conversion is [<= 0] raises and the object keeps what
    it had. *)
Lemma max_difference_set_non_positive self v d :
  float v = Ok d → num_le d (int 0) = true →
  max_difference_set float str (Some v) self
  = (Raise (ValueError ("max difference must be positive " +:+ str v)), self).
Proof. intros Hf Hle. unfold max_difference_set. by rewrite Hf, Hle. Qed.

(** A value [float] cannot convert raises what [float] raises. *)
Lemma max_difference_set_unconvertible self v e :
  float v = Raise e →
  max_difference_set float str (Some v) self = (Raise e, self).
Proof. intros Hf. unfold max_difference_set. by rewrite Hf. Qed.

(** Whenever the setter raises, the object is as it was. *)
Lemma max_difference_set_raise_unchanged self difference e self' :
  max_difference_set float str difference self = (Raise e, self') →
  self' = self.
Proof.
  unfold max_difference_set.
  destruct difference as [v|]; [|done].
  destruct (float v) as [d|]; [|congruence].
  destruct (num_le d (int 0)); congruence.
Qed.

(** Away from NaN the setter accepts exactly the strictly positive
    conversions, and stores the converted value. *)
Lemma max_difference_set_number self v d :
  float v = Ok d → is_nan d = false →
  max_difference_set float str (Some v) self
  = if num_gt d (int 0)
    then (Ok (), {| _name := _name self; _reference := _reference self;
                    _max_difference := Some d |})
    else (Raise (ValueError ("max difference must be positive " +:+ str v)),
          self).
Proof.
  intros Hf Hnan. unfold max_difference_set, num_gt. rewrite Hf.
  rewrite (num_le_or_lt d (int 0) Hnan eq_refl).
  by destruct (num_lt (int 0) d).
Qed.

(** A NaN conversion is not [<= 0]: the setter stores it. *)
Lemma max_difference_set_nan self v :
  float v = Ok NaN →
  max_difference_set float str (Some v) self
  = (Ok (), {| _name := _name self; _reference := _reference self;
               _max_difference := Some NaN |}).
Proof. intros Hf. unfold max_difference_set. by rewrite Hf. Qed.
End max_difference.

(** C10, at the input where the code departs from it.  Setting
    [max_difference] to the float NaN, whose conversion is not strictly
    positive, raises nothing and stores NaN. *)
Theorem C10_nan_max_difference_is_stored :
  let self := {| _name := Some "sex"; _reference := Some (int 0);
                 _max_difference := Some (int 1) |} in
  num_gt NaN (int 0) = false
  ∧ max_difference_set float_of_float (λ _, "nan") (Some NaN) self
    = (Ok (), {| _name := Some "sex"; _reference := Some (int 0);
                 _max_difference := Some NaN |}).
Proof. split; reflexivity. Qed.

End covariates_facts.

(** ** Properties of the frame operations *)

Module pandas_facts.
Import pandas session normalisation.

Lemma alist_lookup_elem c l : c ∈ l.*1 ↔ is_Some (alist_lookup c l).
Proof.
  induction l as [|[k v] l IH]; simpl.
  - rewrite elem_of_nil. split; [done|]. by intros [? ?].
  - rewrite elem_of_cons. case_decide as Hk.
    + split; [eauto|]. intros _. by left.
    + rewrite IH. split; [|by right]. by intros [?|?]; [congruence|].
Qed.

Lemma has_column_true c df : has_column c df = true ↔ is_Some (column c df).
Proof.
  unfold has_column, columns, column.
  by rewrite bool_decide_eq_true, alist_lookup_elem.
Qed.

Lemma has_column_false c df : has_column c df = false ↔ column c df = None.
Proof.
  rewrite <- not_true_iff_false, has_column_true, <- eq_None_not_Some. done.
Qed.

Lemma has_column_column c df :
  has_column c df = bool_decide (is_Some (column c df)).
Proof.
  destruct (has_column c df) eqn:E; symmetry.
  - apply bool_decide_eq_true, has_column_true, E.
  - apply bool_decide_eq_false. by rewrite <- has_column_true, E.
Qed.

Lemma getitem_column c df v : column c df = Some v → getitem df c = v.
Proof. unfold getitem, column. by intros ->. Qed.

Lemma alist_lookup_assign c c' v l :
  alist_lookup c' (alist_assign c v l)
  = if decide (c = c') then Some v else alist_lookup c' l.
Proof.
  induction l as [|[k x] l IH]; simpl.
  - done.
  - destruct (decide (k = c)) as [->|Hkc]; simpl.
    + by destruct (decide (c = c')).
    + destruct (decide (k = c')) as [->|Hkc'].
      * by rewrite decide_False by congruence.
      * done.
Qed.

Lemma column_assign c c' v df :
  column c' (assign c v df) = if decide (c = c') then Some v else column c' df.
Proof. apply alist_lookup_assign. Qed.

Lemma column_assign_scalar c c' x df :
  column c' (assign_scalar c x df)
  = if decide (c = c') then Some (replicate (length (index df)) x)
    else column c' df.
Proof. apply alist_lookup_assign. Qed.

Lemma alist_lookup_filter c (names : list string) (l : list (string * list cell)) :
  alist_lookup c (filter (λ kv, kv.1 ∉ names) l)
  = if decide (c ∈ names) then None else alist_lookup c l.
Proof.
  induction l as [|[k x] l IH].
  - by case_decide.
  - rewrite filter_cons. simpl. destruct (decide (k ∉ names)) as [Hk|Hk]; simpl.
    + destruct (decide (k = c)) as [->|Hkc]; [|done].
      by destruct (decide (c ∈ names)).
    + destruct (decide (k = c)) as [->|Hkc]; [|done].
      rewrite IH. by destruct (decide (c ∈ names)).
Qed.

Lemma column_drop c names df :
  column c (drop names df) = if decide (c ∈ names) then None else column c df.
Proof. apply alist_lookup_filter. Qed.

Lemma drop_nil df : drop [] df = df.
Proof.
  destruct df as [ix cs]. unfold drop. simpl. f_equal.
  induction cs as [|kv cs IH]; [done|].
  rewrite filter_cons_True; [by rewrite IH|]. apply not_elem_of_nil.
Qed.

Lemma mask_filter_all_false {A} (mask : list bool) (l : list A) :
  Forall (λ b, b = false) mask → mask_filter mask l = [].
Proof.
  intros H. revert l. induction H as [|b mask -> _ IH]; intros [|x l]; simpl; auto.
Qed.

Lemma mask_filter_nil {A} (mask : list bool) (l : list A) :
  length mask = length l →
  mask_filter mask l = [] ↔ Forall (λ b, b = false) mask.
Proof.
  revert l. induction mask as [|b mask IH]; intros [|x l] Hlen; simpl in *;
    try done.
  injection Hlen as Hlen. destruct b.
  - split; [done|]. by intros [? _]%Forall_cons_1.
  - rewrite (IH l Hlen). split; [by constructor|]. by intros [_ ?]%Forall_cons_1.
Qed.

End pandas_facts.

(** ** Properties of the data normalisation *)

Module normalisation_facts.
Import pandas pandas_facts session normalisation.

Ltac eval_append :=
  repeat match goal with
  | |- context [String.append ?a ?b] =>
      let r := eval vm_compute in (String.append a b) in
      progress change (String.append a b) with r
  end.

Ltac decide_strings :=
  repeat match goal with
  | |- context [decide (?a = ?b)] =>
      lazymatch eval vm_compute in (String.eqb a b) with
      | true => rewrite (decide_True (P := a = b)) by reflexivity
      | false =>
          rewrite (decide_False (P := a = b))
            by (apply String.eqb_neq; vm_compute; reflexivity)
      | _ =>
          first
            [ rewrite (decide_True (P := a = b)) by reflexivity
            | rewrite (decide_False (P := a = b))
                by (assumption || (apply not_eq_sym; assumption)) ]
      end
  end.

Ltac solve_column :=
  decide_strings;
  repeat match goal with H : _ ≠ _ |- _ => clear H end;
  repeat case_match; simplify_eq; done.

Ltac by_column_name c :=
  destruct (decide (c = "age")) as [->|?]; [solve_column|];
  destruct (decide (c = "time")) as [->|?]; [solve_column|];
  destruct (decide (c = "age_lower")) as [->|?]; [solve_column|];
  destruct (decide (c = "age_upper")) as [->|?]; [solve_column|];
  destruct (decide (c = "time_lower")) as [->|?]; [solve_column|];
  destruct (decide (c = "time_upper")) as [->|?]; [solve_column|];
  destruct (decide (c = "name")) as [->|?]; [solve_column|];
  destruct (decide (c = "hold_out")) as [->|?]; [solve_column|];
  destruct (decide (c = "nu")) as [->|?]; [solve_column|];
  destruct (decide (c = "eta")) as [->|?]; [solve_column|];
  solve_column.

Lemma column_step d at_ lu c :
  column c (point_to_interval_step d (at_, lu))
  = if decide (at_ +:+ "_" +:+ lu = c)
    then match column (at_ +:+ "_" +:+ lu) d with
         | Some v => Some v
         | None => column at_ d
         end
    else column c d.
Proof.
  unfold point_to_interval_step.
  rewrite !has_column_column.
  destruct (column (at_ +:+ "_" +:+ lu) d) as [v|] eqn:E1; simpl.
  - case_decide; by subst.
  - destruct (column at_ d) as [w|] eqn:E2; simpl.
    + rewrite column_assign. by rewrite (getitem_column _ _ _ E2).
    + case_decide; by subst.
Qed.

Lemma at_lu_pairs_eq :
  at_lu_pairs
  = [("age", "lower"); ("age", "upper"); ("time", "lower"); ("time", "upper")].
Proof. reflexivity. Qed.

Lemma column_intervals df c :
  column c (foldl point_to_interval_step df at_lu_pairs) = intervals df c.
Proof.
  rewrite at_lu_pairs_eq. cbn [foldl]. rewrite !column_step. unfold intervals.
  eval_append.
  destruct (decide (c = "age_lower")) as [->|?].
  { decide_strings. by repeat case_match. }
  destruct (decide (c = "age_upper")) as [->|?];
    [decide_strings; by repeat case_match|].
  destruct (decide (c = "time_lower")) as [->|?];
    [decide_strings; by repeat case_match|].
  destruct (decide (c = "time_upper")) as [->|?];
    [decide_strings; by repeat case_match|].
  decide_strings. by repeat case_match.
Qed.

Lemma index_step d p : index (point_to_interval_step d p) = index d.
Proof.
  destruct p as [at_ lu]. unfold point_to_interval_step. by case (_ && _).
Qed.

Lemma point_age_time_converted df :
  _point_age_time_to_interval (Some df) = Some (converted df).
Proof. done. Qed.

Lemma index_converted df : index (converted df) = index df.
Proof.
  unfold converted. rewrite at_lu_pairs_eq. cbn [foldl drop index].
  by rewrite !index_step.
Qed.

Lemma point_columns_elem d c :
  c ∈ point_columns d ↔ (c = "age" ∨ c = "time") ∧ is_Some (column c d).
Proof.
  unfold point_columns. rewrite list_elem_of_filter.
  unfold columns, column. rewrite alist_lookup_elem.
  rewrite !elem_of_cons, elem_of_nil. tauto.
Qed.

Lemma column_converted df c :
  column c (converted df)
  = if decide (c = "age") then None
    else if decide (c = "time") then None
    else intervals df c.
Proof.
  unfold converted. cbv zeta. rewrite column_drop, column_intervals.
  destruct (decide (c ∈ _)) as [Hc|Hc]; rewrite point_columns_elem in Hc.
  - destruct Hc as [[-> | ->] _]; by decide_strings.
  - destruct (decide (c = "age")) as [->|?].
    { rewrite column_intervals in Hc. rewrite eq_None_not_Some; tauto. }
    destruct (decide (c = "time")) as [->|?]; [|done].
    rewrite column_intervals in Hc. rewrite eq_None_not_Some; tauto.
Qed.

Lemma column_default c x d c' :
  column c' (if negb (has_column c d) then assign_scalar c x d else d)
  = if decide (c = c')
    then match column c d with
         | Some v => Some v
         | None => Some (replicate (length (index d)) x)
         end
    else column c' d.
Proof.
  rewrite has_column_column.
  destruct (column c d) as [v|] eqn:E; simpl.
  - case_decide; by subst.
  - by rewrite column_assign_scalar.
Qed.

Lemma index_default c x d :
  index (if negb (has_column c d) then assign_scalar c x d else d) = index d.
Proof. by case (negb _). Qed.

Lemma column_length df c v :
  well_formed df → column c df = Some v → length v = length (index df).
Proof.
  intros [_ Hlen]. unfold column.
  induction Hlen as [|[k x] l Hx _ IH]; simpl; [done|].
  case_decide; [|done]. by intros [= <-].
Qed.

Lemma existsb_Forall_false {A} (f : A → bool) l :
  existsb f l = false ↔ Forall (λ b, b = false) (f <$> l).
Proof.
  induction l as [|x l IH]; simpl.
  - split; [constructor|done].
  - rewrite orb_false_iff, IH. split.
    + intros [? ?]. by constructor.
    + by intros [? ?]%Forall_cons_1.
Qed.

(** With a name column there, the null test of [_amend_data_input] fires
    exactly when some name is null. *)
Lemma null_names_nonempty df v :
  well_formed df → column "name" df = Some v →
  negb (empty (select_rows (isnull <$> getitem (converted df) "name")
                 (converted df)))
  = existsb isnull v.
Proof.
  intros Hwf Hv.
  assert (column "name" (converted df) = Some v) as Hv'.
  { rewrite column_converted. decide_strings. unfold intervals. by rewrite Hv. }
  rewrite (getitem_column _ _ _ Hv').
  unfold empty, select_rows. cbn [index cols]. rewrite index_converted.
  rewrite (bool_decide_eq_false_2 (_ <$> _ = [])); last first.
  { intros Hnil%fmap_nil_inv. unfold column in Hv'. by rewrite Hnil in Hv'. }
  rewrite orb_false_r.
  pose proof (column_length df "name" v Hwf Hv) as Hlen.
  destruct (existsb isnull v) eqn:E.
  - apply negb_true_iff, bool_decide_eq_false. intros Hnil.
    apply mask_filter_nil in Hnil; [|by rewrite length_fmap].
    apply existsb_Forall_false in Hnil. congruence.
  - apply negb_false_iff, bool_decide_eq_true.
    apply mask_filter_all_false. by apply existsb_Forall_false.
Qed.

Lemma index_with_defaults d : index (with_defaults d) = index d.
Proof. unfold with_defaults. cbn [foldl]. by rewrite !index_default. Qed.

Lemma column_with_defaults d c :
  column c (with_defaults d)
  = match column c d with
    | Some v => Some v
    | None =>
        if decide (c = "hold_out")
        then Some (replicate (length (index d)) (CNum (int 0)))
        else if decide (c = "nu")
        then Some (replicate (length (index d)) (CNum NaN))
        else if decide (c = "eta")
        then Some (replicate (length (index d)) (CNum NaN))
        else None
    end.
Proof.
  unfold with_defaults. cbn [foldl].
  rewrite !column_default, !index_default.
  destruct (decide (c = "hold_out")) as [->|?];
    [decide_strings; by repeat case_match|].
  destruct (decide (c = "nu")) as [->|?];
    [decide_strings; by repeat case_match|].
  destruct (decide (c = "eta")) as [->|?];
    [decide_strings; by repeat case_match|].
  decide_strings. by repeat case_match.
Qed.

Section amend_facts.
Variable frame_str : DataFrame → string.

Lemma amend_None :
  _amend_data_input frame_str None
  = Raise (AttributeError "'NoneType' object has no attribute 'columns'").
Proof. done. Qed.

Lemma amend_named df :
  has_column "name" (converted df) = true →
  empty (select_rows (isnull <$> getitem (converted df) "name")
           (converted df)) = true →
  _amend_data_input frame_str (Some df) = Ok (with_defaults (converted df)).
Proof.
  intros Hname Hnull. unfold _amend_data_input.
  rewrite point_age_time_converted. cbv zeta. rewrite Hname, Hnull.
  cbn [negb rbind]. unfold with_defaults. reflexivity.
Qed.

Lemma amend_null_names df :
  has_column "name" (converted df) = true →
  empty (select_rows (isnull <$> getitem (converted df) "name")
           (converted df)) = false →
  _amend_data_input frame_str (Some df)
  = Raise (RuntimeError
      ("There are some data values that lack data names. "
       +:+ frame_str (select_rows (isnull <$> getitem (converted df) "name")
                   (converted df)))).
Proof.
  intros Hname Hnull. unfold _amend_data_input.
  rewrite point_age_time_converted. cbv zeta. rewrite Hname, Hnull.
  cbn [negb rbind]. reflexivity.
Qed.

Lemma amend_unnamed df :
  has_column "name" (converted df) = false →
  _amend_data_input frame_str (Some df)
  = Ok (with_defaults
          (assign "name" (CStr ∘ label_str <$> index (converted df))
             (converted df))).
Proof.
  intros Hname. unfold _amend_data_input.
  rewrite point_age_time_converted. cbv zeta. rewrite Hname.
  cbn [negb rbind]. unfold with_defaults. reflexivity.
Qed.

Lemma has_name_converted df :
  has_column "name" (converted df) = has_column "name" df.
Proof.
  rewrite !has_column_column, column_converted. decide_strings.
  unfold intervals. destruct (column "name" df); by decide_strings.
Qed.

(** C4, amended.  On a well-formed frame, normalisation raises
    [RuntimeError] when a name column is there and holds a null;
    otherwise it returns a frame with the same index in which the point
    columns [age] and [time] are gone, each interval column that was
    missing is the point column of its axis, a missing [name] is the
    index labels as strings, a missing [hold_out] is 0, missing [nu] and
    [eta] are NaN, and every column that was there is kept. *)
Theorem C4_normalised_table df :
  well_formed df →
  if has_column "name" df && existsb isnull (getitem df "name")
  then ∃ msg, _amend_data_input frame_str (Some df) = Raise (RuntimeError msg)
  else ∃ out,
    _amend_data_input frame_str (Some df) = Ok out
    ∧ index out = index df
    ∧ ∀ c, column c out = expected df c.
Proof.
  intros Hwf.
  destruct (column "name" df) as [v|] eqn:Hv.
  - assert (has_column "name" df = true) as Hname
      by (apply has_column_true; eauto).
    rewrite Hname, (getitem_column _ _ _ Hv). cbn [andb].
    pose proof (null_names_nonempty df v Hwf Hv) as Hnull.
    destruct (existsb isnull v).
    + eexists. apply amend_null_names.
      * by rewrite has_name_converted.
      * by apply negb_true_iff.
    + exists (with_defaults (converted df)). split; [|split].
      * apply amend_named; [by rewrite has_name_converted|].
        by apply negb_false_iff.
      * by rewrite index_with_defaults, index_converted.
      * intros c.
        rewrite column_with_defaults, index_converted, column_converted.
        unfold expected, intervals. by_column_name c.
  - assert (has_column "name" df = false) as Hname
      by (by apply has_column_false).
    rewrite Hname. cbn [andb].
    eexists. split; [|split].
    + apply amend_unnamed. by rewrite has_name_converted.
    + rewrite index_with_defaults. apply index_converted.
    + intros c.
      rewrite column_with_defaults. cbn [assign index].
      rewrite column_assign, index_converted, column_converted.
      unfold expected, intervals. by_column_name c.
Qed.

Lemma getitem_unfold d c : getitem d c = default [] (column c d).
Proof. done. Qed.

Lemma step_without_point d at_ lu :
  has_column at_ d = false → point_to_interval_step d (at_, lu) = d.
Proof.
  intros H. unfold point_to_interval_step. by rewrite H, andb_false_r.
Qed.

Lemma converted_without_points d :
  has_column "age" d = false → has_column "time" d = false →
  converted d = d.
Proof.
  intros Hage Htime. unfold converted. rewrite at_lu_pairs_eq.
  cbn [foldl]. cbv zeta.
  rewrite (step_without_point d "age" "lower") by done.
  rewrite (step_without_point d "age" "upper") by done.
  rewrite (step_without_point d "time" "lower") by done.
  rewrite (step_without_point d "time" "upper") by done.
  unfold point_columns, has_column in *.
  apply bool_decide_eq_false in Hage, Htime.
  rewrite filter_cons_False, filter_cons_False by done.
  apply drop_nil.
Qed.

Lemma with_defaults_present d :
  has_column "hold_out" d = true → has_column "nu" d = true →
  has_column "eta" d = true → with_defaults d = d.
Proof.
  intros Hh Hn He. unfold with_defaults. cbn [foldl].
  rewrite Hh. cbn [negb]. rewrite Hn. cbn [negb]. by rewrite He.
Qed.

Lemma amend_normal_form d :
  normal_form d → _amend_data_input frame_str (Some d) = Ok d.
Proof.
  intros (Hage & Htime & Hname & Hh & Hn & He & Hnull).
  rewrite amend_named; rewrite converted_without_points by done;
    [by rewrite with_defaults_present|done|].
  unfold empty, select_rows. cbn [index]. rewrite Hnull.
  by rewrite bool_decide_eq_true_2.
Qed.

Lemma has_column_with_defaults c d :
  has_column c (with_defaults d)
  = has_column c d
    || bool_decide (c = "hold_out") || bool_decide (c = "nu")
    || bool_decide (c = "eta").
Proof.
  rewrite !has_column_column, column_with_defaults.
  destruct (column c d); simpl; [done|].
  repeat case_decide; subst; simpl;
    rewrite ?bool_decide_eq_true_2 by eauto;
    rewrite ?bool_decide_eq_false_2 by (done || by intros [? ?]);
    done.
Qed.

Lemma with_defaults_normal_form d :
  has_column "age" d = false → has_column "time" d = false →
  has_column "name" d = true →
  mask_filter (isnull <$> getitem d "name") (index d) = [] →
  normal_form (with_defaults d).
Proof.
  intros Hage Htime Hname Hnull. unfold normal_form.
  rewrite !has_column_with_defaults, index_with_defaults.
  rewrite Hage, Htime, Hname.
  repeat split; try done; try (by case (has_column _ d)).
  apply has_column_true in Hname as [v Hv].
  rewrite getitem_unfold in Hnull |- *.
  rewrite column_with_defaults. by rewrite Hv in Hnull |- *.
Qed.

Lemma amend_output_normal_form data out :
  _amend_data_input frame_str data = Ok out → normal_form out.
Proof.
  destruct data as [df|]; [|done].
  assert (has_column "age" (converted df) = false) as Hage.
  { apply has_column_false. rewrite column_converted. by decide_strings. }
  assert (has_column "time" (converted df) = false) as Htime.
  { apply has_column_false. rewrite column_converted. by decide_strings. }
  destruct (has_column "name" (converted df)) eqn:Hname.
  - destruct (empty (select_rows (isnull <$> getitem (converted df) "name")
                       (converted df))) eqn:Hnull.
    + rewrite amend_named by done. intros <-%Ok_inj.
      apply with_defaults_normal_form; try done.
      unfold empty, select_rows in Hnull. cbn [index cols] in Hnull.
      apply orb_true_iff in Hnull as [Hnull|Hnull].
      * by apply bool_decide_eq_true in Hnull.
      * apply bool_decide_eq_true, fmap_nil_inv in Hnull.
        apply has_column_true in Hname as [v Hv].
        unfold column in Hv. by rewrite Hnull in Hv.
    + by rewrite amend_null_names.
  - rewrite amend_unnamed by done. intros <-%Ok_inj.
    apply with_defaults_normal_form.
    + rewrite has_column_column, column_assign. decide_strings.
      by rewrite <- has_column_column.
    + rewrite has_column_column, column_assign. decide_strings.
      by rewrite <- has_column_column.
    + rewrite has_column_column, column_assign. decide_strings.
      by apply bool_decide_eq_true_2.
    + rewrite getitem_unfold, column_assign. decide_strings.
      cbn [from_option id]. apply mask_filter_all_false.
      apply Forall_fmap, Forall_fmap, Forall_true. done.
Qed.
End amend_facts.


(** With the default index, the names filled in are the row positions. *)
Lemma expected_name_default_index df :
  index df = RangeIndex (length (index df)) → column "name" df = None →
  expected df "name" = Some (row_positions df).
Proof.
  intros Hix Hname. unfold expected, row_positions. decide_strings.
  by rewrite Hname, <- Hix.
Qed.

(** C4 as stated fails: a frame whose only row carries the index label 7
    and that has no name column gets the name "7", not its row position
    "0". *)
Lemma C4_counterexample :
  let df := {| index := [LInt 7];
               cols := [("meas_value", [CNum (int 1)])] |} in
  ∃ out,
    _amend_data_input (λ _, "") (Some df) = Ok out
    ∧ column "name" out = Some [CStr "7"]
    ∧ row_positions df = [CStr "0"].
Proof. eexists. by vm_compute. Qed.

Lemma C4_normalised_table_witness :
  let df := {| index := [LInt 0; LInt 1];
               cols := [("age", [CNum (int 5); CNum (int 50)]);
                        ("time_lower", [CNum (int 1990); CNum (int 1990)]);
                        ("time", [CNum (int 2000); CNum (int 2000)])] |} in
  ∃ out,
    _amend_data_input (λ _, "") (Some df) = Ok out
    ∧ index out = index df
    ∧ ∀ c, column c out = expected df c.
Proof.
  intros df. apply (C4_normalised_table (λ _, "") df).
  split.
  - apply (bool_decide_unpack _). by vm_compute.
  - by repeat constructor.
Defined.

(** C5.  Normalisation is idempotent: when it succeeds on a table,
    applying it to its output returns that output. *)
Theorem C5_normalisation_idempotent (frame_str : DataFrame → string)
    (data : option DataFrame) (out : DataFrame) :
  _amend_data_input frame_str data = Ok out →
  _amend_data_input frame_str (Some out) = Ok out.
Proof.
  intros H. by apply amend_normal_form, (amend_output_normal_form frame_str data).
Qed.

Lemma C5_normalisation_idempotent_witness :
  let data := {| index := [LInt 3; LStr "b"];
                 cols := [("age", [CNum (int 5); CNum (int 50)]);
                          ("time_lower", [CNum (int 1990); CNum (int 1990)]);
                          ("time", [CNum (int 2000); CNum (int 2000)])] |} in
  let out := {| index := [LInt 3; LStr "b"];
                cols := [("time_lower", [CNum (int 1990); CNum (int 1990)]);
                         ("age_lower", [CNum (int 5); CNum (int 50)]);
                         ("age_upper", [CNum (int 5); CNum (int 50)]);
                         ("time_upper", [CNum (int 2000); CNum (int 2000)]);
                         ("name", [CStr "3"; CStr "b"]);
                         ("hold_out", [CNum (int 0); CNum (int 0)]);
                         ("nu", [CNum NaN; CNum NaN]);
                         ("eta", [CNum NaN; CNum NaN])] |} in
  _amend_data_input (λ _, "") (Some data) = Ok out
  ∧ _amend_data_input (λ _, "") (Some out) = Ok out.
Proof.
  intros data out.
  assert (_amend_data_input (λ _, "") (Some data) = Ok out) as H
    by (vm_compute; reflexivity).
  split; [exact H|].
  exact (C5_normalisation_idempotent (λ _, "") (Some data) out H).
Defined.

End normalisation_facts.

(** ** Properties of session.py *)

Module session_facts.
Import pandas session session_examples.

Lemma append_cons a s t : String a s +:+ t = String a (s +:+ t).
Proof. done. Qed.

Lemma prefix_spec n h :
  String.prefix n h = true ↔ ∃ post, h = n +:+ post.
Proof.
  revert h. induction n as [|a n IH]; intros [|b h]; simpl.
  - split; [by exists ""|done].
  - split; [by exists (String b h)|done].
  - split; [done|]. by intros [? ?].
  - setoid_rewrite append_cons.
    destruct (Ascii.ascii_dec a b) as [->|Hab].
    + rewrite IH. split; intros [post ?]; exists post; congruence.
    + split; [done|]. intros [post ?]. congruence.
Qed.

(** [str_in] is the substring test. *)
Lemma str_in_spec n h :
  str_in n h = true ↔ ∃ pre post, h = pre +:+ n +:+ post.
Proof.
  induction h as [|b h IH]; cbn [str_in].
  - rewrite orb_false_r, prefix_spec. split.
    + intros [post ?]. by exists "", post.
    + intros ([|??] & post & H); [by exists post|done].
  - rewrite orb_true_iff, prefix_spec, IH. split.
    + intros [[post H]|(pre & post & H)].
      * by exists "", post.
      * exists (String b pre), post. rewrite append_cons. by rewrite H.
    + intros ([|c pre] & post & H).
      * left. by exists post.
      * right. exists pre, post. rewrite append_cons in H. congruence.
Qed.

Section session_facts.
Context {Model Var Misalignment : Type}.
Context `{!Truthy Var, !Truthy Misalignment}.
Context (check_alignment : Model → Var → Misalignment)
  (str_misalignment : Misalignment → string)
  (random_effect scale_set_by_user : Model → bool)
  (scale : Model → Var)
  (COMMAND_IO : arg → option (list string))
  (frame_str : DataFrame → string)
  (filename : string)
  (run_with_logging :
     @trace Model Var → list string → Z * string * string)
  (log_message : @trace Model Var → list string)
  (fit_var scale_var : @trace Model Var → Var).

Local Abbreviation check := (_check_dismod_command log_message).
Local Abbreviation run := (_run_dismod COMMAND_IO filename run_with_logging log_message).
Local Abbreviation fit_at := (_fit check_alignment str_misalignment
  scale_set_by_user scale COMMAND_IO frame_str filename run_with_logging
  log_message fit_var scale_var).
Local Abbreviation fit_any := (fit check_alignment str_misalignment random_effect
  scale_set_by_user scale COMMAND_IO frame_str filename run_with_logging
  log_message fit_var scale_var).
Local Abbreviation simulate_at := (simulate check_alignment str_misalignment
  scale_set_by_user scale COMMAND_IO frame_str filename run_with_logging
  log_message scale_var).

Lemma check_unfold command stdout stderr (t : @trace Model Var) :
  check command stdout stderr t
  = if lacks_end_line command (log_message t)
    then
      if has_sentinel oom_sentinel stdout stderr
      then (Raise (DismodATException "Dismod-AT ran out of memory"), t)
      else if has_sentinel max_iter_sentinel stdout stderr
      then (Ok (), (t ++ [mathlog_warning "Dismod-AT exceeded iterations"])%list)
      else (Raise (DismodATException
              ("Dismod-AT failed to complete '" +:+ command +:+ "' command")),
            t)
    else (Ok (), t).
Proof.
  unfold _check_dismod_command, bind, ask, lacks_end_line, has_sentinel.
  destruct (last (log_message t)) as [message|]; [|by repeat case_match].
  by repeat case_match.
Qed.

Lemma run_unfold c0 rest (t : @trace Model Var) :
  run c0 rest t
  = let completed := run_with_logging (at_start c0 rest t) (argv_of filename c0 rest) in
    let return_code := completed.1.1 in
    match check (str c0) completed.1.2 completed.2 (at_check filename c0 rest t) with
    | (Raise e, t') => (Raise e, t')
    | (Ok (), t') =>
        if bool_decide (return_code = 0%Z)
        then (Ok (completed.1.2, completed.2), refreshed COMMAND_IO c0 t')
        else (Raise (AssertionError ("return code is " +:+ pretty return_code)),
              t')
    end.
Proof.
  unfold _run_dismod, bind, emit, ask, ret, at_check, at_start, argv_of,
    refreshed, raise.
  cbn [fst snd]. rewrite <- !app_assoc. cbn [app].
  destruct (run_with_logging _ _) as [[rc out] err]. cbn [fst snd].
  rewrite <- !app_assoc. cbn [app].
  destruct (check _ _ _ _) as [[[]|e] t']; [|done].
  case_bool_decide; [|done]. by destruct (COMMAND_IO c0).
Qed.

(** A truthy, misaligned initial guess stops [_fit] at once. *)
Lemma fit_misaligned fit_level model data guess (t : @trace Model Var) :
  truth guess = true → truth (check_alignment model guess) = true →
  fit_at fit_level model data (Some guess) t
  = (Raise (RuntimeError
       ("Model and initial guess are misaligned: "
        +:+ str_misalignment (check_alignment model guess) +:+ ".")), t).
Proof.
  intros Hguess Hmis. unfold _fit, bind at 1. by rewrite Hguess, Hmis.
Qed.

(** [simulate] normalises the data before it looks at [fit_var]. *)
Lemma simulate_misaligned model data v count (t : @trace Model Var) :
  truth v = true → truth (check_alignment model v) = true →
  simulate_at model data (Some v) count t
  = match _amend_data_input frame_str data with
    | Ok _ =>
        (Raise (RuntimeError
           ("Model and fit var are misaligned: "
            +:+ str_misalignment (check_alignment model v) +:+ ".")), t)
    | Raise e => (Raise e, t)
    end.
Proof.
  intros Hv Hmis. unfold simulate, bind at 1. unfold lift.
  destruct (_amend_data_input frame_str data) as [d|e]; [|done].
  unfold bind at 1. by rewrite Hv, Hmis.
Qed.

(** The public [fit] logs which fit it runs, then is [_fit]. *)
Lemma fit_unfold model data initial_guess (t : @trace Model Var) :
  fit_any model data initial_guess t
  = if random_effect model
    then fit_at "both" model data initial_guess
           (t ++ [mathlog_info "Running fit both."])%list
    else fit_at "fixed" model data initial_guess
           (t ++ [mathlog_info "Running fit fixed."])%list.
Proof. unfold fit. by destruct (random_effect model). Qed.

(** C1.  The exit status of the process must be zero, or the call fails.
    Let [stdout], [stderr] and the return code be what the external
    process gave, and let the log be read when the process is over.  If
    the log is empty or its last message lacks ["end <command>"]: with
    the out-of-memory marker in stdout or stderr the run raises
    [DismodATException], whatever the return code; otherwise with the
    maximum-iterations marker one warning is logged, nothing is raised
    and the result is returned; otherwise the run raises
    [DismodATException] naming the command.  If the last message holds
    ["end <command>"], nothing is raised or logged by the check whatever
    the markers, and the result is returned. *)
Theorem C1_command_completion c0 rest (t : @trace Model Var) :
  let completed :=
    run_with_logging (at_start c0 rest t) (argv_of filename c0 rest) in
  let return_code := completed.1.1 in
  let stdout := completed.1.2 in
  let stderr := completed.2 in
  let checked := at_check filename c0 rest t in
  let lacks := lacks_end_line (str c0) (log_message checked) in
  let oom := has_sentinel oom_sentinel stdout stderr in
  let max_iter := has_sentinel max_iter_sentinel stdout stderr in
  let warned :=
    (checked ++ [mathlog_warning "Dismod-AT exceeded iterations"])%list in
  (return_code ≠ 0%Z → succeeded (run c0 rest t).1 = false)
  ∧ (lacks = true → oom = true →
     run c0 rest t
     = (Raise (DismodATException "Dismod-AT ran out of memory"), checked))
  ∧ (return_code = 0%Z → lacks = true → oom = false → max_iter = true →
     run c0 rest t = (Ok (stdout, stderr), refreshed COMMAND_IO c0 warned))
  ∧ (lacks = true → oom = false → max_iter = false →
     run c0 rest t
     = (Raise (DismodATException
          ("Dismod-AT failed to complete '" +:+ str c0 +:+ "' command")),
        checked))
  ∧ (return_code = 0%Z → lacks = false →
     run c0 rest t = (Ok (stdout, stderr), refreshed COMMAND_IO c0 checked)).
Proof.
  cbv zeta. rewrite run_unfold. cbv zeta. rewrite check_unfold.
  split; [|split; [|split; [|split]]].
  - intros Hcode. rewrite (bool_decide_eq_false_2 _ Hcode).
    by repeat case_match.
  - by intros -> ->.
  - intros Hcode -> -> ->. by rewrite bool_decide_eq_true_2.
  - by intros -> -> ->.
  - intros Hcode ->. by rewrite bool_decide_eq_true_2.
Qed.

(** C6, amended.  With an initial guess (or [fit_var]) that is true as
    a Python object and that [check_alignment] finds misaligned:
    [_fit], so [fit_fixed] and [fit_random], raises the error naming the
    misalignment and leaves the history as it was, whatever the data;
    [fit] does the same after its one log line; [simulate] normalises
    the data first, raises the normalisation error when there is one and
    else the error naming the misalignment, and in both cases leaves the
    history as it was. *)
Theorem C6_misalignment_stops_the_call model guess :
  truth guess = true → truth (check_alignment model guess) = true →
  let named := str_misalignment (check_alignment model guess) in
  let guess_error :=
    Raise (RuntimeError
      ("Model and initial guess are misaligned: " +:+ named +:+ ".")) in
  (∀ fit_level data (t : @trace Model Var),
     fit_at fit_level model data (Some guess) t = (guess_error, t))
  ∧ (∀ data (t : @trace Model Var),
     fit_any model data (Some guess) t
     = (guess_error,
        (t ++ [mathlog_info (if random_effect model
                             then "Running fit both."
                             else "Running fit fixed.")])%list))
  ∧ (∀ data count (t : @trace Model Var),
     simulate_at model data (Some guess) count t
     = match _amend_data_input frame_str data with
       | Ok _ =>
           (Raise (RuntimeError
              ("Model and fit var are misaligned: " +:+ named +:+ ".")), t)
       | Raise e => (Raise e, t)
       end).
Proof.
  intros Hguess Hmis. cbv zeta. repeat split.
  - intros. by apply fit_misaligned.
  - intros. rewrite fit_unfold.
    destruct (random_effect model); by apply fit_misaligned.
  - intros. by apply simulate_misaligned.
Qed.
End session_facts.

Lemma C1_command_completion_witness :
  _run_dismod no_tables "fit.db" (iterations_world 0) unfinished_log
    (str_arg "fit") [str_arg "fixed"] []
  = (Ok ("EXIT: Maximum Number of Iterations Exceeded.", ""),
     [flush; codelog_debug "Running Dismod-AT ['fit', 'fixed']"; close_db;
      run_process ["dmdismod"; "fit.db"; "fit"; "fixed"]; reopen_db;
      mathlog_warning "Dismod-AT exceeded iterations"])
  ∧ succeeded
      (_run_dismod no_tables "fit.db" (iterations_world 1) unfinished_log
         (str_arg "fit") [str_arg "fixed"] []).1
    = false.
Proof.
  split.
  - apply (proj1 (proj2 (proj2 (C1_command_completion no_tables "fit.db"
             (iterations_world 0) unfinished_log
             (str_arg "fit") [str_arg "fixed"] [])))); reflexivity.
  - apply (proj1 (C1_command_completion no_tables "fit.db"
             (iterations_world 1) unfinished_log
             (str_arg "fit") [str_arg "fixed"] [])). done.
Defined.

(** C6 as stated fails for [simulate]: with a misaligned [fit_var] and a
    data row whose name is null, the error raised is the one of the data
    normalisation, which names no key. *)
Lemma C6_counterexample :
  truth (Truthy := plain_object_truthy) () = true
  ∧ truth (misaligned_keys () ()) = true
  ∧ simulate (Truthy0 := plain_object_truthy) misaligned_keys str_keys
      (λ _, false) (λ _, ()) no_tables (λ _, "") "fit.db"
      (iterations_world 0) unfinished_log (λ _, ())
      () (Some unnamed_row) (Some ()) 5 []
    = (Raise (RuntimeError
         "There are some data values that lack data names. "), []).
Proof. by vm_compute. Qed.

Lemma C6_misalignment_stops_the_call_witness :
  _fit (Truthy0 := plain_object_truthy) misaligned_keys str_keys
    (λ _, false) (λ _, ()) no_tables (λ _, "") "fit.db"
    (iterations_world 0) unfinished_log (λ _, ()) (λ _, ())
    "both" () (Some unnamed_row) (Some ()) []
  = (Raise (RuntimeError
       "Model and initial guess are misaligned: rate.iota."), []).
Proof.
  apply (proj1 (C6_misalignment_stops_the_call
           (Truthy0 := plain_object_truthy) misaligned_keys str_keys
           (λ _, false) (λ _, false) (λ _, ()) no_tables (λ _, "") "fit.db"
           (iterations_world 0) unfinished_log (λ _, ()) (λ _, ())
           () () eq_refl eq_refl)).
Defined.

End session_facts.

(** ** Properties of the age-time grid *)

Module age_time_grid_facts.
Import age_time_grid.

Lemma NoDup_cprod {A B} (l : list A) (k : list B) :
  NoDup l → NoDup k → NoDup (cprod l k).
Proof.
  intros Hl Hk. rewrite list_cprod_list_prod.
  induction Hl as [|x l Hx Hl IH]; simpl; [constructor|].
  apply NoDup_app. split; [|split; [|done]].
  - apply NoDup_fmap_2; [|done]. by intros ?? [=].
  - intros [a b] [y [[= -> ->] _]]%list_elem_of_fmap Hin.
    apply list_elem_of_In, in_prod_iff in Hin as [Hin _].
    by apply list_elem_of_In in Hin.
Qed.

Lemma length_cprod {A B} (l : list A) (k : list B) :
  length (cprod l k) = length l * length k.
Proof. rewrite list_cprod_list_prod. apply length_prod. Qed.

Section grid_facts.
Context {V : Type}.
Implicit Types (g : AgeTimeGrid V) (r : row V) (v : value V).

Lemma keys_unset width (l : list (number * number)) :
  (λ r : row V, (age r, time r)) <$> (unset_row width <$> l) = l.
Proof.
  rewrite <- list_fmap_compose. rewrite <- (list_fmap_id l) at 2.
  apply list_fmap_ext. by intros _ [a t] _.
Qed.

Lemma construct_scalar ages times cols :
  (∃ x, ages = scalar x) ∨ (∃ y, times = scalar y) →
  construct (V := V) ages times cols = inl TypeError.
Proof. intros [[x ->]|[y ->]]; [done|]. by destruct ages. Qed.

Lemma construct_sequence a t cols :
  ∃ g, construct (V := V) (sequence a) (sequence t) cols = inr g
       ∧ ages g = a ∧ times g = t ∧ columns g = columns_of cols
       ∧ keys g = cprod a t
       ∧ length (mulstd g) = 3
       ∧ well_formed g.
Proof.
  eexists. split; [done|]. unfold keys, well_formed. cbn.
  rewrite keys_unset. repeat split; try done.
  apply Forall_fmap, Forall_true. intros at_. cbn. apply length_replicate.
Qed.







Lemma setitem_shape_error g ka kt v :
  selected g ka kt ≠ [] → fits g v = false →
  setitem g ka kt v = inl ShapeError.
Proof.
  unfold setitem. intros Hsel ->. by destruct (selected g ka kt).
Qed.



(** C7.  For non-empty sequences of distinct ages and of distinct times
    and any columns, construction succeeds with |ages| x |times| rows in
    the primary store, whose (age, time) keys are without repetition and
    are exactly the pairs of an age and a time, and with 3 rows in the
    mulstd table; with a scalar for the ages or for the times it fails
    with a type error. *)
Theorem C7_grid_construction (a t : list number) (cols : columns_arg) :
  a ≠ [] → t ≠ [] → NoDup a → NoDup t →
  (∃ g, construct (V := V) (sequence a) (sequence t) cols = inr g
        ∧ length (grid g) = length a * length t
        ∧ NoDup (keys g)
        ∧ (∀ x y, (x, y) ∈ keys g ↔ x ∈ a ∧ y ∈ t)
        ∧ length (mulstd g) = 3)
  ∧ (∀ x times, construct (V := V) (scalar x) times cols = inl TypeError)
  ∧ (∀ ages y, construct (V := V) ages (scalar y) cols = inl TypeError).
Proof.
  intros _ _ Ha Ht. split; [|split].
  - destruct (construct_sequence a t cols)
      as (g & Hg & _ & _ & _ & Hkeys & Hmulstd & _).
    exists g. split; [done|]. split; [|split; [|split; [|done]]].
    + rewrite <- length_cprod, <- Hkeys. unfold keys.
      by rewrite length_fmap.
    + rewrite Hkeys. by apply NoDup_cprod.
    + intros x y. rewrite Hkeys. apply list_elem_of_cprod.
  - intros x times. apply construct_scalar. eauto.
  - intros ages y. apply construct_scalar. eauto.
Qed.

End grid_facts.

Lemma C7_grid_construction_witness :
  ∃ g, construct (V := Z) (sequence [int 0; int 1; int 10])
         (sequence [int 2000; int 2010]) (names ["var_id"]) = inr g
       ∧ length (grid g) = 6
       ∧ NoDup (keys g)
       ∧ (∀ x y, (x, y) ∈ keys g
                 ↔ x ∈ [int 0; int 1; int 10] ∧ y ∈ [int 2000; int 2010])
       ∧ length (mulstd g) = 3.
Proof.
  apply (C7_grid_construction (V := Z) [int 0; int 1; int 10]
           [int 2000; int 2010] (names ["var_id"])).
  - done.
  - done.
  - apply (bool_decide_unpack _). by vm_compute.
  - apply (bool_decide_unpack _). by vm_compute.
Defined.


(** The scenario of the specification and of the test:
    [grid[:, 2005:2015] = [321]] writes the rows of 2010 and leaves those
    of 2000, [grid[:, 2005:2015] = {21: "hiya"}] writes 21 there, and
    [grid[:, 2015:2020] = [9]] is a range error. *)
Example example_grid_scenario :
  sum_map id (λ g, (λ r, cells r) <$> grid g)
    (setitem example_grid (slice None None)
       (slice (Some (int 2005)) (Some (int 2015))) (sequence_value [321%Z]))
  = inr [[None]; [Some 321%Z]; [None]; [Some 321%Z]; [None]; [Some 321%Z]]
  ∧ sum_map id (λ g, (λ r, cells r) <$> grid g)
      (setitem example_grid (slice None None)
         (slice (Some (int 2005)) (Some (int 2015)))
         (dict_value [(21%Z, "hiya")]))
    = inr [[None]; [Some 21%Z]; [None]; [Some 21%Z]; [None]; [Some 21%Z]]
  ∧ setitem example_grid (slice None None)
      (slice (Some (int 2015)) (Some (int 2020))) (sequence_value [9%Z])
    = inl RangeError.
Proof. repeat split; reflexivity. Qed.


End age_time_grid_facts.


(** * More properties of the code *)

(** ** priors.py: the checks of the constructors, and equality *)

Module prior_checks_facts.
Import priors prior_calls priors_facts prior_checks.

Ltac unfold_constructors :=
  unfold UniformPrior, gaussian_init, StudentsTPrior, log_gaussian_init,
    LogStudentsTPrior, _validate_bounds, _validate_standard_deviation,
    _validate_nu.

(** The bounds are checked first. *)
Lemma bounds_checked_first c :
  num_le (arg_lower c) (arg_mean c) && num_le (arg_mean c) (arg_upper c)
  = false →
  construct c = Raise (ValueError "Bounds are inconsistent").
Proof.
  destruct c; simpl; unfold_constructors; by intros ->.
Qed.

(** With consistent bounds, the standard deviation and then nu decide. *)
Lemma checked_after_bounds c :
  num_le (arg_lower c) (arg_mean c) && num_le (arg_mean c) (arg_upper c)
  = true →
  construct c
  = if negative (arg_standard_deviation c)
    then Raise (ValueError "Standard deviation must be positive")
    else if negative (arg_nu c)
    then Raise (ValueError "Nu must be positive")
    else Ok (object_of c).
Proof.
  destruct c; simpl; unfold_constructors; intros ->; unfold negative; simpl;
    try done; repeat (case_match; simpl; try done).
Qed.

(** X1.  Every constructor runs the same checks in the same order: the
    bounds, then the standard deviation, then nu, each where the class
    has the argument.  A call raises [ValueError] with the message of
    the first check that fails, and builds the object from its arguments
    when none does. *)
Theorem construct_first_error c :
  construct c
  = match first_error c with
    | Some msg => Raise (ValueError msg)
    | None => Ok (object_of c)
    end.
Proof.
  unfold first_error.
  destruct (num_le (arg_lower c) (arg_mean c)
            && num_le (arg_mean c) (arg_upper c)) eqn:Hbounds; cbn [negb].
  - rewrite checked_after_bounds by done.
    destruct (negative (arg_standard_deviation c)); [done|].
    by destruct (negative (arg_nu c)).
  - by apply bounds_checked_first.
Qed.

Ltac lookups :=
  repeat first
    [ rewrite lookup_insert_eq
    | rewrite lookup_insert_ne by (by intros [=])
    | rewrite lookup_empty ].

(** X2.  What is built holds what was given: the name, and under the
    keys [lower], [upper], [mean], [std], [nu] and [eta] of [parameters]
    the arguments of the call, each key there exactly when the class has
    the argument.  No class puts [density] among its parameters. *)
Theorem parameters_of_constructed c p :
  construct c = Ok p →
  name p = arg_name c
  ∧ parameters p !! "lower" = Some (arg_lower c)
  ∧ parameters p !! "upper" = Some (arg_upper c)
  ∧ parameters p !! "mean" = Some (arg_mean c)
  ∧ parameters p !! "std" = arg_standard_deviation c
  ∧ parameters p !! "nu" = arg_nu c
  ∧ parameters p !! "eta" = arg_eta c
  ∧ parameters p !! "density" = None.
Proof.
  intros H. destruct (construct_total c) as [Hok|Herr].
  - rewrite Hok in H. injection H as <-.
    destruct c; simpl; unfold parameters; repeat split; by lookups.
  - rewrite H in Herr. done.
Qed.

Lemma parameters_erase_class p : parameters (erase_class p) = parameters p.
Proof. by destruct p. Qed.

Lemma erase_class_parameters p q :
  parameters p = parameters q → erase_class p = erase_class q.
Proof.
  intros H.
  pose proof (f_equal (.!! "lower") H) as Hlo.
  pose proof (f_equal (.!! "upper") H) as Hup.
  pose proof (f_equal (.!! "mean") H) as Hm.
  pose proof (f_equal (.!! "std") H) as Hsd.
  pose proof (f_equal (.!! "nu") H) as Hnu.
  pose proof (f_equal (.!! "eta") H) as Heta.
  clear H.
  destruct p, q; unfold parameters in *; simpl;
    repeat match goal with
    | H : context [_ !! _] |- _ =>
        first [ rewrite lookup_insert_eq in H
              | rewrite lookup_insert_ne in H by (by intros [=])
              | rewrite lookup_empty in H ]
    end; congruence.
Qed.

(** X3.  [==] compares the names and the parameters and nothing else:
    two priors are equal exactly when they have the same name and differ
    at most by their class within a family (Gaussian and Laplace,
    log-Gaussian and log-Laplace). *)
Theorem eq_iff_erase_class p q :
  __eq__ p (a_Prior q) = true
  ↔ name p = name q ∧ erase_class p = erase_class q.
Proof.
  rewrite eq_unfold. split; intros [Hn H]; (split; [done|]).
  - by apply erase_class_parameters.
  - by rewrite <- (parameters_erase_class p), H, parameters_erase_class.
Qed.

(** X4.  Equal priors have equal hashes, as Python asks of [__hash__]
    and [__eq__], whatever the hash of a frozenset is. *)
Theorem eq_implies_equal_hash (hash : gset (string * number) → Z) p q :
  __eq__ p (a_Prior q) = true → __hash__ hash p = __hash__ hash q.
Proof. intros [_ H]%eq_unfold. unfold __hash__. by rewrite H. Qed.

(** X5.  [==] on priors is reflexive, symmetric and transitive, and a
    prior never equals an object that is not a prior. *)
Theorem eq_equivalence :
  (∀ p, __eq__ p (a_Prior p) = true)
  ∧ (∀ p q, __eq__ p (a_Prior q) = __eq__ q (a_Prior p))
  ∧ (∀ p q r, __eq__ p (a_Prior q) = true → __eq__ q (a_Prior r) = true →
              __eq__ p (a_Prior r) = true)
  ∧ (∀ p, __eq__ p not_a_Prior = false).
Proof.
  repeat split.
  - intros p. by apply eq_unfold.
  - intros p q. destruct (__eq__ p (a_Prior q)) eqn:E; symmetry.
    + apply eq_unfold in E as [? ?]. by apply eq_unfold.
    + apply not_true_iff_false. rewrite eq_unfold. intros [? ?].
      apply not_true_iff_false in E. apply E, eq_unfold. done.
  - intros p q r [? ?]%eq_unfold [? ?]%eq_unfold. apply eq_unfold.
    split; congruence.
Qed.




Lemma nan_or_non_negative x :
  is_nan x || num_le (int 0) x = true → num_lt x (int 0) = false.
Proof.
  destruct x; unfold int; cbn [is_nan num_le num_lt orb]; try done.
  intros ->. done.
Qed.

(** X7.  NaN among the arguments: a NaN lower bound, mean or upper bound is
    refused with the bounds error, while a NaN standard deviation or nu
    passes its check, so that the object is built when the bounds are
    consistent and no other argument is negative. *)
Theorem nan_arguments c :
  (is_nan (arg_lower c) || is_nan (arg_mean c) || is_nan (arg_upper c) = true →
   construct c = Raise (ValueError "Bounds are inconsistent"))
  ∧ (num_le (arg_lower c) (arg_mean c) && num_le (arg_mean c) (arg_upper c)
     = true →
     from_option (λ sd, is_nan sd || num_le (int 0) sd) true
       (arg_standard_deviation c) = true →
     from_option (λ nu, is_nan nu || num_le (int 0) nu) true (arg_nu c) = true →
     construct c = Ok (object_of c)).
Proof.
  split.
  - intros Hnan. apply bounds_checked_first. revert Hnan.
    destruct (arg_lower c), (arg_mean c), (arg_upper c); simpl; try done;
      by rewrite andb_false_r.
  - intros Hbounds. rewrite checked_after_bounds by done. unfold negative.
    destruct (arg_standard_deviation c) as [sd|], (arg_nu c) as [nu|];
      cbn [from_option]; intros Hsd Hnu.
    all: repeat match goal with
         | H : is_nan ?x || num_le (int 0) ?x = true |- _ =>
             rewrite (nan_or_non_negative x H); clear H
         end; done.
Qed.

Lemma parameters_of_constructed_witness :
  let c := call_log_students (int 1) (int 2) (int 3) (int 0) (int 0) PosInf
             (Some "iota") in
  construct c = Ok (object_of c)
  ∧ parameters (object_of c) !! "nu" = Some (int 3)
  ∧ parameters (object_of c) !! "density" = None.
Proof.
  intros c.
  assert (construct c = Ok (object_of c)) as H by reflexivity.
  split; [exact H|].
  destruct (parameters_of_constructed c (object_of c) H)
    as (_ & _ & _ & _ & _ & Hnu & _ & Hdensity).
  split; [exact Hnu|exact Hdensity].
Defined.


Lemma nan_arguments_witness :
  construct (call_gaussian GaussianPrior_cls NaN (int 1) NegInf PosInf None)
  = Raise (ValueError "Bounds are inconsistent")
  ∧ construct (call_gaussian GaussianPrior_cls (int 0) NaN NegInf PosInf None)
    = Ok (gaussian_obj GaussianPrior_cls None NegInf PosInf (int 0) NaN).
Proof.
  split.
  - apply (proj1 (nan_arguments
             (call_gaussian GaussianPrior_cls NaN (int 1) NegInf PosInf None))).
    reflexivity.
  - apply (proj2 (nan_arguments
             (call_gaussian GaussianPrior_cls (int 0) NaN NegInf PosInf None)));
      reflexivity.
Defined.

Lemma eq_iff_erase_class_witness :
  __eq__ (gaussian_obj GaussianPrior_cls None NegInf PosInf (int 0) (int 1))
    (a_Prior (gaussian_obj LaplacePrior_cls None NegInf PosInf (int 0) (int 1)))
  = true.
Proof.
  apply (proj2 (eq_iff_erase_class
           (gaussian_obj GaussianPrior_cls None NegInf PosInf (int 0) (int 1))
           (gaussian_obj LaplacePrior_cls None NegInf PosInf (int 0) (int 1)))).
  split; reflexivity.
Defined.

Lemma eq_implies_equal_hash_witness :
  let hash := λ s : gset (string * number), Z.of_nat (size s) in
  let p := gaussian_obj GaussianPrior_cls None NegInf PosInf (int 0) (int 1) in
  let q := gaussian_obj LaplacePrior_cls None NegInf PosInf (int 0) (int 1) in
  __eq__ p (a_Prior q) = true ∧ __hash__ hash p = __hash__ hash q.
Proof.
  intros hash p q.
  assert (__eq__ p (a_Prior q) = true) as H by (vm_compute; reflexivity).
  split; [exact H|]. exact (eq_implies_equal_hash hash p q H).
Defined.

Lemma eq_equivalence_witness :
  let p := uniform_obj (Some "a") (int 0) (int 1) (int 0) in
  __eq__ p (a_Prior p) = true.
Proof.
  intros p.
  apply (proj1 (proj2 (proj2 eq_equivalence)) p p p);
    apply (proj1 eq_equivalence).
Defined.

End prior_checks_facts.

(** ** covariates.py: equality of columns, the setters and [__init__] *)

Module covariate_columns_facts.
Import covariates covariates_facts covariate_columns.

Lemma float_eq_sym x y : float_eq x y = float_eq y x.
Proof.
  unfold float_eq. destruct (decide (x = y)) as [->|Hne].
  - done.
  - rewrite !bool_decide_eq_false_2 by congruence. by rewrite !andb_false_r.
Qed.

Lemma float_eq_true x y : float_eq x y = true ↔ x = y ∧ is_nan x = false.
Proof.
  unfold float_eq. rewrite andb_true_iff, negb_true_iff, bool_decide_eq_true.
  tauto.
Qed.

Lemma optional_float_eq_sym x y :
  optional_float_eq x y = optional_float_eq y x.
Proof. destruct x, y; simpl; try done. apply float_eq_sym. Qed.

Lemma optional_float_eq_true x y :
  optional_float_eq x y = true ↔ x = y ∧ from_option is_nan false x = false.
Proof.
  destruct x as [x|], y as [y|]; simpl; try (split; [done|by intros [? ?]]).
  rewrite float_eq_true. split; intros [? ?]; split; congruence.
Qed.

Lemma covariate_eq_true c1 c2 :
  __eq__ c1 c2 = true ↔ c1 = c2 ∧ holds_nan c1 = false.
Proof.
  unfold __eq__, holds_nan.
  rewrite !andb_true_iff, bool_decide_eq_true, !optional_float_eq_true,
    orb_false_iff.
  destruct c1, c2; simpl. split.
  - intros [[? [? ?]] [? ?]]. by simplify_eq.
  - intros [? [? ?]]. by simplify_eq.
Qed.

Section column_facts.
Context {Value : Type}.
Variable float : Value → result number.
Variable str : Value → string.
Variable as_str : Value → option string.

(** X8.  [==] on columns is symmetric and transitive, holds only between
    columns with the same attributes, and a column equals itself exactly
    when it holds no NaN. *)
Theorem covariate_eq_partial_equivalence :
  (∀ c1 c2, __eq__ c1 c2 = __eq__ c2 c1)
  ∧ (∀ c1 c2 c3, __eq__ c1 c2 = true → __eq__ c2 c3 = true →
                 __eq__ c1 c3 = true)
  ∧ (∀ c1 c2, __eq__ c1 c2 = true → c1 = c2)
  ∧ (∀ c, __eq__ c c = negb (holds_nan c)).
Proof.
  split; [|split; [|split]].
  - intros c1 c2. unfold __eq__.
    rewrite (optional_float_eq_sym (_reference c1)),
      (optional_float_eq_sym (_max_difference c1)).
    by rewrite (bool_decide_ext (_name c1 = _name c2) (_name c2 = _name c1))
      by (split; congruence).
  - intros c1 c2 c3 [-> ?]%covariate_eq_true [-> ?]%covariate_eq_true.
    by apply covariate_eq_true.
  - by intros c1 c2 [-> _]%covariate_eq_true.
  - intros c. destruct (holds_nan c) eqn:E; simpl.
    + apply not_true_iff_false. rewrite covariate_eq_true. intros [_ ?]. congruence.
    + by apply covariate_eq_true.
Qed.

Lemma length_lt_1 s : (String.length s < 1)%nat ↔ s = "".
Proof. destruct s; simpl; split; (done || lia). Qed.

(** X9.  Each setter, when it raises, leaves the column as it was, and when it
    returns has changed its own attribute only. *)
Theorem setters_are_local c :
  (∀ nom, let out := name_set str as_str nom c in
          _reference out.2 = _reference c
          ∧ _max_difference out.2 = _max_difference c
          ∧ (succeeded out.1 = false → out.2 = c))
  ∧ (∀ ref, let out := reference_set float ref c in
            _name out.2 = _name c
            ∧ _max_difference out.2 = _max_difference c
            ∧ (succeeded out.1 = false → out.2 = c))
  ∧ (∀ difference, let out := max_difference_set float str difference c in
                   _name out.2 = _name c
                   ∧ _reference out.2 = _reference c
                   ∧ (succeeded out.1 = false → out.2 = c)).
Proof.
  split; [|split].
  - intros nom. unfold name_set. destruct (as_str nom) as [s|]; [|done].
    by case_bool_decide.
  - intros ref. unfold reference_set. by destruct (float ref).
  - intros [v|]; [|done]. unfold max_difference_set.
    destruct (float v) as [d|]; [|done]. by destruct (num_le d (int 0)).
Qed.

(** X10.  The setters keep a valid column valid, whether they return or
    raise. *)
Theorem setters_keep_valid c :
  valid c →
  (∀ nom, valid (name_set str as_str nom c).2)
  ∧ (∀ ref, valid (reference_set float ref c).2)
  ∧ (∀ difference, valid (max_difference_set float str difference c).2).
Proof.
  intros [[s [Hs Hne]] Hmax]. split; [|split].
  - intros nom. unfold name_set. destruct (as_str nom) as [s'|].
    + case_bool_decide as Hlen; [by split; eauto|].
      split; [|done]. exists s'. split; [done|].
      by rewrite <- length_lt_1.
    + by split; eauto.
  - intros ref. unfold reference_set.
    destruct (float ref); by split; eauto.
  - intros [v|]; unfold max_difference_set.
    + destruct (float v) as [d|]; [|by split; eauto].
      destruct (num_le d (int 0)) eqn:E; [by split; eauto|].
      split; [by eauto|]. simpl. by intros ? [= <-].
    + split; [by eauto|]. done.
Qed.

(** X11.  [__init__] returns a column exactly when the name is a non-empty
    string, the reference and the cutoff that are given convert to floats
    and the converted cutoff is not [<= 0]; the column then holds the name
    and the two conversions. *)
Theorem init_builds column_name reference max_difference c :
  __init__ float str as_str column_name reference max_difference = Ok c
  ↔ (∃ s, as_str column_name = Some s ∧ s ≠ "" ∧ _name c = Some s)
    ∧ optional_float float reference = Ok (_reference c)
    ∧ optional_float float max_difference = Ok (_max_difference c)
    ∧ (∀ d, _max_difference c = Some d → num_le d (int 0) = false).
Proof.
  unfold __init__, and_then, name_set.
  destruct (as_str column_name) as [s|]; simpl;
    [|split; [done|by intros [[? [? _]] _]]].
  case_bool_decide as Hlen; rewrite length_lt_1 in Hlen.
  { split; [done|]. intros [[? [? [? _]]] _]. congruence. }
  assert (∀ (r : option number) (P : Prop),
    (P ∧ Some s = _name c ∧ r = _reference c) ↔
    ((∃ s0, Some s = Some s0 ∧ s0 ≠ "" ∧ _name c = Some s0)
     ∧ Ok r = Ok (_reference c) ∧ P)) as Hshape.
  { intros r P. split.
    - intros [? [? ->]]. split; [by eauto|done].
    - intros [[s0 [[= <-] [_ ?]]] [[= ?] ?]]. done. }
  destruct reference as [ref|]; simpl; unfold reference_set;
    [destruct (float ref) as [r|e]; simpl;
      [|split; [done|by intros [_ [? _]]]]|].
  all: rewrite <- Hshape; clear Hshape.
  all: destruct max_difference as [v|]; simpl; unfold max_difference_set;
    [destruct (float v) as [d|e]; simpl;
      [destruct (num_le d (int 0)) eqn:Hd|]|]; simpl.
  all: destruct c as [n r' m]; simpl.
  all: try (split; [done|by intros [[? _] _]]).
  all: try (split; [intros [= <- <- <-]; split; [split; [done|]|done]
                   |intros [[[= <-] ?] [<- <-]]; done]).
  all: try by intros ? [= <-].
  all: try done.
  all: split; [done|]; intros [[[= <-] Hle] _].
  all: specialize (Hle _ eq_refl); congruence.
Qed.
End column_facts.

Lemma covariate_eq_partial_equivalence_witness :
  let c := {| _name := Some "sex"; _reference := Some (int 0);
              _max_difference := Some NaN |} in
  __eq__ c c = false.
Proof.
  intros c.
  rewrite (proj2 (proj2 (proj2 covariate_eq_partial_equivalence)) c).
  reflexivity.
Defined.

Lemma setters_are_local_witness :
  let c := {| _name := Some "sex"; _reference := Some (int 0);
              _max_difference := Some (int 1) |} in
  (max_difference_set float_of str_of (Some (py_float (int 0))) c).2 = c.
Proof.
  intros c.
  apply (proj2 (proj2 (proj2 (proj2 (setters_are_local float_of str_of as_str_of c))
           (Some (py_float (int 0)))))).
  reflexivity.
Defined.

Lemma setters_keep_valid_witness :
  let c := {| _name := Some "sex"; _reference := Some (int 0);
              _max_difference := Some (int 1) |} in
  valid c ∧ valid (name_set str_of as_str_of (py_str "") c).2.
Proof.
  intros c.
  assert (valid c) as H.
  { split; [by exists "sex"|]. intros d [= <-]. reflexivity. }
  split; [exact H|].
  apply (proj1 (setters_keep_valid float_of str_of as_str_of c H)).
Defined.

Lemma init_builds_witness :
  __init__ float_of str_of as_str_of (py_str "sex") (Some (py_float (int 0)))
    None
  = Ok {| _name := Some "sex"; _reference := Some (int 0);
          _max_difference := None |}.
Proof.
  apply (proj2 (init_builds float_of str_of as_str_of (py_str "sex")
           (Some (py_float (int 0))) None _)).
  split; [by exists "sex"|]. split; [reflexivity|]. split; [reflexivity|].
  intros d [=].
Defined.

End covariate_columns_facts.

(** ** session.py: more on the data normalisation *)

Module normalisation_more_facts.
Import pandas session normalisation pandas_facts normalisation_facts.
Import session_more normalisation_more.

Lemma columns_alist_assign c v (l : list (string * list cell)) :
  (alist_assign c v l).*1 = if decide (c ∈ l.*1) then l.*1 else (l.*1 ++ [c])%list.
Proof.
  induction l as [|[k x] l IH].
  - cbn [alist_assign fmap list_fmap fst app].
    case_decide as Hc; [by apply elem_of_nil in Hc|reflexivity].
  - cbn [alist_assign fmap list_fmap fst].
    destruct (decide (k = c)) as [->|Hk].
    + clear IH. cbn [fmap list_fmap fst]. case_decide as Hc; [done|].
      destruct Hc. apply list_elem_of_here.
    + cbn [fmap list_fmap fst]. rewrite IH.
      destruct (decide (c ∈ l.*1)) as [Hc|Hc].
      * case_decide as Hc'; [done|]. destruct Hc'. by apply list_elem_of_further.
      * case_decide as Hc'; [|done].
        apply elem_of_cons in Hc' as [?|?]; congruence.
Qed.

Lemma columns_assign c v d :
  columns (assign c v d)
  = if decide (c ∈ columns d) then columns d else (columns d ++ [c])%list.
Proof. apply columns_alist_assign. Qed.

Lemma columns_drop names d :
  columns (drop names d) = filter (λ c, c ∉ names) (columns d).
Proof.
  unfold columns, drop. cbn [cols]. induction (cols d) as [|[k x] l IH]; [done|].
  rewrite fmap_cons, !filter_cons. cbn [fst].
  destruct (decide (k ∉ names)); [rewrite fmap_cons|]; by rewrite IH.
Qed.

Lemma Forall_alist_assign (P : string * list cell → Prop) c v l :
  (∀ k, P (k, v)) → Forall P l → Forall P (alist_assign c v l).
Proof.
  intros Hv. induction 1 as [|[k x] l Hx Hl IH]; simpl.
  - by constructor.
  - destruct (decide (k = c)); constructor; auto.
Qed.

Lemma well_formed_assign c v d :
  well_formed d → length v = length (index d) → well_formed (assign c v d).
Proof.
  intros [Hnd Hlen] Hv. split.
  - rewrite columns_assign. case_decide as Hc; [done|].
    apply NoDup_app. split; [done|]. split; [|apply NoDup_singleton].
    intros x Hx ->%list_elem_of_singleton. done.
  - cbn [assign cols index]. by apply Forall_alist_assign.
Qed.

Lemma well_formed_assign_scalar c x d :
  well_formed d → well_formed (assign_scalar c x d).
Proof. intros Hwf. apply well_formed_assign; [done|]. apply length_replicate. Qed.

Lemma well_formed_drop names d : well_formed d → well_formed (drop names d).
Proof.
  intros [Hnd Hlen]. split.
  - rewrite columns_drop. by apply NoDup_filter.
  - cbn [drop cols index]. rewrite Forall_forall in Hlen |- *.
    intros kv [_ Hkv]%list_elem_of_filter. by apply Hlen.
Qed.

Lemma well_formed_getitem d c :
  well_formed d → has_column c d = true → length (getitem d c) = length (index d).
Proof.
  intros Hwf [v Hv]%has_column_true.
  rewrite (getitem_column _ _ _ Hv). by eapply column_length.
Qed.

Lemma well_formed_step d p :
  well_formed d → well_formed (point_to_interval_step d p).
Proof.
  intros Hwf. destruct p as [at_ lu]. unfold point_to_interval_step.
  destruct (negb _ && _) eqn:E; [|done].
  apply andb_true_iff in E as [_ E].
  apply well_formed_assign; [done|]. by apply well_formed_getitem.
Qed.

Lemma well_formed_converted d : well_formed d → well_formed (converted d).
Proof.
  intros Hwf. unfold converted. cbv zeta. apply well_formed_drop.
  rewrite at_lu_pairs_eq. cbn [foldl]. by do 4 apply well_formed_step.
Qed.

Lemma well_formed_with_defaults d : well_formed d → well_formed (with_defaults d).
Proof.
  intros Hwf. unfold with_defaults. cbn [foldl].
  repeat match goal with
  | |- well_formed (if ?b then _ else _) => destruct b
  | |- well_formed (assign_scalar _ _ _) => apply well_formed_assign_scalar
  end; done.
Qed.

Lemma filter_iff_elem {A} (P1 P2 : A → Prop)
    `{!∀ x, Decision (P1 x), !∀ x, Decision (P2 x)} (l : list A) :
  (∀ x, x ∈ l → P1 x ↔ P2 x) → filter P1 l = filter P2 l.
Proof.
  induction l as [|x l IH]; intros Heq; [done|].
  rewrite !filter_cons.
  rewrite IH by (intros y Hy; apply Heq; by apply list_elem_of_further).
  pose proof (Heq x (list_elem_of_here _ _)) as Hx.
  destruct (decide (P1 x)), (decide (P2 x)); tauto.
Qed.

Lemma filter_all {A} (P : A → Prop) `{!∀ x, Decision (P x)} (l : list A) :
  Forall P l → filter P l = l.
Proof.
  induction 1 as [|x l Hx Hl IH]; [done|].
  by rewrite filter_cons_True, IH.
Qed.

Lemma foldl_add_missing (names l : list string) :
  NoDup names →
  foldl add_missing l names = (l ++ filter (λ c, c ∉ l) names)%list.
Proof.
  intros Hnd. revert l.
  induction Hnd as [|c names Hc Hnd IH]; intros l; cbn [foldl].
  - by rewrite filter_nil, app_nil_r.
  - rewrite IH, filter_cons. unfold add_missing.
    destruct (decide (c ∈ l)) as [Hl|Hl].
    + by rewrite decide_False by tauto.
    + rewrite decide_True by done. rewrite <- app_assoc. cbn [app]. do 2 f_equal.
      apply filter_iff_elem. intros x Hx. rewrite elem_of_app, list_elem_of_singleton.
      split; [tauto|]. intros ? [?| ->]; done.
Qed.

Lemma columns_assign_missing c v d :
  columns (if negb (has_column c d) then assign c v d else d)
  = add_missing (columns d) c.
Proof.
  unfold has_column, add_missing. case_bool_decide as Hc; cbn [negb].
  - by rewrite decide_True.
  - rewrite columns_assign. by rewrite !decide_False.
Qed.

Lemma columns_default c x d :
  columns (if negb (has_column c d) then assign_scalar c x d else d)
  = add_missing (columns d) c.
Proof. apply columns_assign_missing. Qed.

Lemma columns_step d at_ lu :
  columns (point_to_interval_step d (at_, lu))
  = if has_column at_ d then add_missing (columns d) (at_ +:+ "_" +:+ lu)
    else columns d.
Proof.
  unfold point_to_interval_step.
  destruct (has_column at_ d); [|by rewrite andb_false_r].
  rewrite andb_true_r. apply columns_assign_missing.
Qed.

Lemma has_column_step c d at_ lu :
  c ≠ at_ +:+ "_" +:+ lu →
  has_column c (point_to_interval_step d (at_, lu)) = has_column c d.
Proof.
  intros Hc. rewrite !has_column_column, column_step.
  by rewrite decide_False by done.
Qed.

Lemma columns_intervals df :
  columns (foldl point_to_interval_step df at_lu_pairs)
  = foldl add_missing (columns df)
      ((if has_column "age" df then ["age_lower"; "age_upper"] else [])
       ++ (if has_column "time" df then ["time_lower"; "time_upper"] else [])).
Proof.
  rewrite at_lu_pairs_eq. cbn [foldl]. rewrite !columns_step.
  rewrite !has_column_step by (vm_compute; congruence).
  destruct (has_column "age" df), (has_column "time" df); done.
Qed.

Lemma columns_converted df :
  columns (converted df)
  = filter (λ c, c ∉ ["age"; "time"])
      (columns (foldl point_to_interval_step df at_lu_pairs)).
Proof.
  unfold converted. cbv zeta. rewrite columns_drop.
  apply filter_iff_elem. intros c Hc. unfold point_columns.
  rewrite list_elem_of_filter. tauto.
Qed.

Section amend_more.
Variable frame_str : DataFrame → string.

(** X12.  Normalisation keeps the invariant of a frame: the table it returns
    has distinct column names and columns as long as the index, and the
    index is the one of the table it was given. *)
Theorem amend_keeps_well_formed df out :
  well_formed df →
  _amend_data_input frame_str (Some df) = Ok out →
  well_formed out ∧ index out = index df.
Proof.
  intros Hwf. apply well_formed_converted in Hwf.
  destruct (has_column "name" (converted df)) eqn:Hname.
  - destruct (empty (select_rows (isnull <$> getitem (converted df) "name")
                       (converted df))) eqn:Hnull.
    + rewrite amend_named by done. intros <-%Ok_inj.
      split; [by apply well_formed_with_defaults|].
      by rewrite index_with_defaults, index_converted.
    + by rewrite amend_null_names.
  - rewrite amend_unnamed by done. intros <-%Ok_inj. split.
    + apply well_formed_with_defaults, well_formed_assign; [done|].
      by rewrite length_fmap.
    + by rewrite index_with_defaults; cbn [assign index]; rewrite index_converted.
Qed.

(** X13.  Converting point columns is idempotent, and its result never has an
    [age] or a [time] column. *)
Theorem point_conversion_idempotent data :
  _point_age_time_to_interval (_point_age_time_to_interval data)
  = _point_age_time_to_interval data
  ∧ match _point_age_time_to_interval data with
    | Some d => has_column "age" d = false ∧ has_column "time" d = false
    | None => data = None
    end.
Proof.
  destruct data as [df|]; [|done].
  rewrite !point_age_time_converted.
  assert (has_column "age" (converted df) = false) as Hage.
  { apply has_column_false. rewrite column_converted. by decide_strings. }
  assert (has_column "time" (converted df) = false) as Htime.
  { apply has_column_false. rewrite column_converted. by decide_strings. }
  split; [|done]. f_equal. by apply converted_without_points.
Qed.
(** X14.  Normalisation neither reorders nor renames: the columns of its
    result are the columns of the frame it was given, without [age] and
    [time] and in their order, followed by the columns it adds. *)
Theorem amend_column_order df out :
  _amend_data_input frame_str (Some df) = Ok out →
  columns out
  = (filter (λ c, c ∉ ["age"; "time"]) (columns df) ++ added df)%list.
Proof.
  intros Hout.
  assert (columns out
          = foldl add_missing (columns (converted df))
              ["name"; "hold_out"; "nu"; "eta"]) as ->.
  { revert Hout. unfold _amend_data_input.
    rewrite point_age_time_converted. cbv zeta.
    destruct (has_column "name" (converted df)) eqn:Hname; cbn [negb].
    - destruct (negb (empty _)); [done|]. cbn [rbind]. intros <-%Ok_inj.
      cbn [foldl]. rewrite !columns_default.
      f_equal. f_equal. f_equal. unfold add_missing. rewrite decide_True; [done|].
      by apply bool_decide_eq_true in Hname.
    - cbn [rbind]. intros <-%Ok_inj.
      cbn [foldl]. rewrite !columns_default.
      f_equal. f_equal. f_equal.
      rewrite <- (columns_assign_missing "name"
        (CStr ∘ label_str <$> index (converted df)) (converted df)).
      by rewrite Hname. }
  rewrite columns_converted, columns_intervals. unfold added.
  rewrite (app_assoc _ _ ["name"; "hold_out"; "nu"; "eta"]).
  set (l := columns df).
  set (I := ((if has_column "age" df then ["age_lower"; "age_upper"] else [])
             ++ (if has_column "time" df then ["time_lower"; "time_upper"]
                 else []))%list).
  assert (NoDup I ∧ Forall (λ c, c ∉ ["age"; "time"]) I
          ∧ Forall (λ c, c ∉ I) ["name"; "hold_out"; "nu"; "eta"]) as (HI & HP & HN).
  { unfold I. destruct (has_column "age" df), (has_column "time" df);
      (split; [|split]); apply (bool_decide_unpack _); by vm_compute. }
  rewrite (foldl_add_missing I) by done.
  rewrite foldl_add_missing by (apply (bool_decide_unpack _); by vm_compute).
  rewrite filter_app, <- app_assoc. f_equal.
  rewrite (filter_app _ I).
  assert (filter (λ c, c ∉ ["age"; "time"]) (filter (λ c, c ∉ l) I)
          = filter (λ c, c ∉ l) I) as ->.
  { apply filter_all. rewrite Forall_forall in HP |- *.
    intros c [_ Hc]%list_elem_of_filter. by apply HP. }
  f_equal. apply filter_iff_elem. intros c Hc.
  rewrite elem_of_app, !list_elem_of_filter.
  rewrite Forall_forall in HN. specialize (HN c Hc).
  assert (c ∉ ["age"; "time"]) as Hat.
  { revert Hc. rewrite !elem_of_cons, !elem_of_nil.
    intros [->|[->|[->|[->|[]]]]] [?|[?|[]]]; done. }
  tauto.
Qed.
End amend_more.

Lemma amend_keeps_well_formed_witness :
  ∃ out,
    _amend_data_input (λ _, "") (Some point_rows) = Ok out
    ∧ well_formed out ∧ index out = [LInt 0; LInt 1].
Proof.
  eexists. split; [vm_compute; reflexivity|].
  apply (amend_keeps_well_formed (λ _, "") point_rows).
  - split; [apply (bool_decide_unpack _); by vm_compute|by repeat constructor].
  - vm_compute; reflexivity.
Defined.

Lemma amend_column_order_witness :
  ∃ out,
    _amend_data_input (λ _, "") (Some point_rows) = Ok out
    ∧ columns out
      = ["meas_value"; "age_lower"; "age_upper"; "time_lower"; "time_upper";
         "name"; "hold_out"; "nu"; "eta"].
Proof.
  eexists. split; [vm_compute; reflexivity|].
  rewrite (amend_column_order (λ _, "") point_rows _
             ltac:(vm_compute; reflexivity)).
  vm_compute; reflexivity.
Defined.

End normalisation_more_facts.

(** ** session.py: what the calls do to the store and the processes *)

Module session_more_facts.
Import pandas session normalisation pandas_facts normalisation_facts.
Import session_facts session_more.

Section session_more_facts.
Context {Model Var Misalignment Samples : Type}.
Context `{!Truthy Var, !Truthy Misalignment}.
Context (check_alignment : Model → Var → Misalignment)
  (str_misalignment : Misalignment → string)
  (random_effect scale_set_by_user : Model → bool)
  (scale : Model → Var)
  (COMMAND_IO : arg → option (list string))
  (frame_str : DataFrame → string)
  (filename : string)
  (run_with_logging :
     @trace Model Var → list string → Z * string * string)
  (log_message : @trace Model Var → list string)
  (fit_var scale_var : @trace Model Var → Var)
  (samples : @trace Model Var → Samples).

Local Abbreviation check := (_check_dismod_command log_message).
Local Abbreviation run := (_run_dismod COMMAND_IO filename run_with_logging log_message).
Local Abbreviation setup := (setup_model_for_fit scale_set_by_user scale COMMAND_IO
  filename run_with_logging log_message scale_var).
Local Abbreviation fit_at := (_fit check_alignment str_misalignment
  scale_set_by_user scale COMMAND_IO frame_str filename run_with_logging
  log_message fit_var scale_var).
Local Abbreviation fit_any := (fit check_alignment str_misalignment random_effect
  scale_set_by_user scale COMMAND_IO frame_str filename run_with_logging
  log_message fit_var scale_var).
Local Abbreviation simulate_at := (simulate check_alignment str_misalignment
  scale_set_by_user scale COMMAND_IO frame_str filename run_with_logging
  log_message scale_var).
Local Abbreviation sample_at := (sample COMMAND_IO filename run_with_logging
  log_message samples).

(** What one run leaves in the history after the check. *)
Lemma run_suffix c0 rest (t : @trace Model Var) :
  ∃ warning : list (@event Model Var),
    (warning = [] ∨ warning = [mathlog_warning "Dismod-AT exceeded iterations"])
    ∧ (run c0 rest t).2
      = ((at_check filename c0 rest t ++ warning)
         ++ if succeeded (run c0 rest t).1
            then from_option (λ o, [refresh o]) [] (COMMAND_IO c0)
            else [])%list.
Proof.
  rewrite run_unfold. cbv zeta. rewrite check_unfold.
  destruct (lacks_end_line _ _);
    [destruct (has_sentinel oom_sentinel _ _);
      [|destruct (has_sentinel max_iter_sentinel _ _)]|].
  all: try case_bool_decide; cbn [fst snd succeeded]; unfold refreshed.
  all: try (exists []; split; [by left|];
            destruct (COMMAND_IO c0); cbn [from_option];
            by rewrite ?app_nil_r).
  all: exists [mathlog_warning "Dismod-AT exceeded iterations"];
    (split; [by right|]);
    destruct (COMMAND_IO c0); cbn [from_option]; by rewrite ?app_nil_r.
Qed.

Lemma invocations_app (t1 t2 : @trace Model Var) :
  invocations (t1 ++ t2)%list = (invocations t1 ++ invocations t2)%list.
Proof. apply omap_app. Qed.

Lemma refreshes_app (t1 t2 : @trace Model Var) :
  refreshes (t1 ++ t2)%list = (refreshes t1 ++ refreshes t2)%list.
Proof. apply omap_app. Qed.

Lemma data_written_app (t1 t2 : @trace Model Var) :
  data_written (t1 ++ t2)%list = (data_written t1 ++ data_written t2)%list.
Proof. apply omap_app. Qed.

Lemma db_closed_app (t1 t2 : @trace Model Var) :
  db_closed (t1 ++ t2)%list
  = foldl (λ closed e, match e with
                       | close_db => true
                       | reopen_db => false
                       | _ => closed
                       end) (db_closed t1) t2.
Proof. apply foldl_app. Qed.

Lemma runs_with_db_closed_run (t warning after : @trace Model Var) c0 rest :
  Forall (λ e, ∃ msg, e = mathlog_warning msg) warning →
  Forall (λ e, ∃ o, e = refresh o) after →
  runs_with_db_closed ((at_check filename c0 rest t ++ warning) ++ after)%list
  = runs_with_db_closed t.
Proof.
  intros Hw Ha. unfold runs_with_db_closed, at_check, at_start.
  rewrite !foldl_app. cbn [foldl watch fst snd].
  destruct (foldl watch (false, true) t) as [closed ok]. cbn [fst snd].
  rewrite andb_true_r.
  assert (∀ l : @trace Model Var,
            Forall (λ e, (∃ msg, e = mathlog_warning msg)
                         ∨ ∃ o, e = refresh o) l →
            ∀ seen, foldl watch seen l = seen) as Hkeep.
  { induction 1 as [|e l [[msg ->]|[o ->]] _ IH]; intros seen; cbn; auto. }
  rewrite (Hkeep warning), (Hkeep after); [done| |].
  - eapply Forall_impl; [exact Ha|]. intros e ?. by right.
  - eapply Forall_impl; [exact Hw|]. intros e ?. by left.
Qed.

(** X15.  Every run starts exactly one process, with the command line
    made of the strings of the command.  The process is started while
    the db file is closed: a history in which every process was started
    with the db file closed stays such a history, and one in which some
    process was not stays so too.  The db file is open when the run is
    over, whether it returns or raises.  Output tables are refreshed
    only by a run that returns, and then those of [COMMAND_IO] for the
    command; no data is written. *)
Theorem run_dismod_effects c0 rest (t : @trace Model Var) :
  let out := run c0 rest t in
  invocations out.2 = (invocations t ++ [argv_of filename c0 rest])%list
  ∧ runs_with_db_closed out.2 = runs_with_db_closed t
  ∧ db_closed out.2 = false
  ∧ refreshes out.2
    = (refreshes t ++ if succeeded out.1
                      then from_option (λ o, [o]) [] (COMMAND_IO c0)
                      else [])%list
  ∧ data_written out.2 = data_written t.
Proof.
  cbv zeta. destruct (run_suffix c0 rest t) as (w & Hw & ->).
  split; [|split].
  - unfold at_check, at_start. rewrite !invocations_app.
    destruct (succeeded _), (COMMAND_IO c0), Hw as [-> | ->]; cbn;
      by rewrite ?app_nil_r.
  - apply runs_with_db_closed_run.
    + destruct Hw as [-> | ->]; repeat constructor. by eexists.
    + destruct (succeeded _), (COMMAND_IO c0); repeat constructor.
      by eexists.
  - unfold at_check, at_start.
    rewrite !refreshes_app, !data_written_app, !db_closed_app.
    destruct (succeeded _), (COMMAND_IO c0), Hw as [-> | ->]; cbn;
      by rewrite ?app_nil_r.
Qed.

Lemma run_invocations c0 rest (t : @trace Model Var) :
  invocations (run c0 rest t).2
  = (invocations t ++ [argv_of filename c0 rest])%list.
Proof.
  destruct (run_suffix c0 rest t) as (w & Hw & ->).
  unfold at_check, at_start. rewrite !invocations_app.
  destruct (succeeded _), (COMMAND_IO c0), Hw as [-> | ->]; cbn;
    by rewrite ?app_nil_r.
Qed.

Lemma run_data_written c0 rest (t : @trace Model Var) :
  data_written (run c0 rest t).2 = data_written t.
Proof.
  destruct (run_suffix c0 rest t) as (w & Hw & ->).
  unfold at_check, at_start. rewrite !data_written_app.
  destruct (succeeded _), (COMMAND_IO c0), Hw as [-> | ->]; cbn;
    by rewrite ?app_nil_r.
Qed.

Lemma setup_unfold model data guess (t : @trace Model Var) :
  setup model data guess t
  = match run (str_arg "init") []
            (t ++ [set_model model; set_option;
                   set_data (_point_age_time_to_interval data)])%list with
    | (Ok _, t') =>
        (Ok (),
         (t' ++ [if scale_set_by_user model
                 then set_scale_var (scale model)
                 else match guess with
                      | Some guess => set_scale_var guess
                      | None => assign_model_scale model (scale_var t')
                      end])%list)
    | (Raise e, t') => (Raise e, t')
    end.
Proof.
  unfold setup_model_for_fit, bind at 1 2 3, emit at 1 2 3.
  unfold bind at 1. rewrite <- !app_assoc. cbn [app].
  destruct (run _ _ _) as [[r|e] t']; [|done].
  by destruct (scale_set_by_user model); [|destruct guess as [g|]].
Qed.

Lemma setup_observed model data guess (t : @trace Model Var) :
  let out := setup model data guess t in
  invocations out.2
  = (invocations t ++ [argv_of filename (str_arg "init") []])%list
  ∧ data_written out.2
    = (data_written t ++ [_point_age_time_to_interval data])%list.
Proof.
  cbv zeta. rewrite setup_unfold.
  set (t0 := (t ++ _)%list).
  pose proof (run_invocations (str_arg "init") [] t0) as Hi.
  pose proof (run_data_written (str_arg "init") [] t0) as Hd.
  assert (invocations t0 = invocations t) as Hi0.
  { unfold t0. rewrite !invocations_app. cbn. by rewrite !app_nil_r. }
  assert (data_written t0
          = (data_written t ++ [_point_age_time_to_interval data])%list) as Hd0.
  { unfold t0. by rewrite !data_written_app. }
  rewrite Hi0 in Hi. rewrite Hd0 in Hd.
  destruct (run (str_arg "init") [] t0) as [[r|e] t']; cbn [fst snd] in *;
    [|done].
  rewrite invocations_app, data_written_app, Hi, Hd.
  by destruct (scale_set_by_user model); [|destruct guess as [g|]];
    cbn; rewrite !app_nil_r.
Qed.

Lemma misaligned_false model (guess : option Var) :
  misaligned check_alignment model guess = false →
  match guess with
  | Some guess =>
      if truth guess
      then
        if truth (check_alignment model guess)
        then raise (RuntimeError
               ("Model and initial guess are misaligned: "
                +:+ str_misalignment (check_alignment model guess) +:+ "."))
        else ret ()
      else ret ()
  | None => ret ()
  end = (ret () : @M Model Var ()).
Proof.
  destruct guess as [g|]; [|done]. simpl.
  destruct (truth g); [|done]. by destruct (truth (check_alignment model g)).
Qed.

Lemma fit_aligned fit_level model data guess (t : @trace Model Var) :
  misaligned check_alignment model guess = false →
  fit_at fit_level model data guess t
  = match _amend_data_input frame_str data with
    | Raise e => (Raise e, t)
    | Ok d =>
        match setup model (Some d) guess t with
        | (Raise e, t1) => (Raise e, t1)
        | (Ok _, t1) =>
            match run (str_arg "fit") [str_arg fit_level]
                    match guess with
                    | Some g =>
                        (t1 ++ [mathlog_info
                                  "Setting initial value for search from user argument.";
                                set_start_var g])%list
                    | None => t1
                    end with
            | (Raise e, t3) => (Raise e, t3)
            | (Ok dm, t3) =>
                (Ok {| _fit_var := fit_var t3; dismod_out := dm.1;
                       dismod_err := dm.2 |}, t3)
            end
        end
    end.
Proof.
  intros Hal. unfold _fit. rewrite (misaligned_false _ _ Hal).
  unfold bind at 1, ret at 1. unfold bind at 1, lift.
  destruct (_amend_data_input frame_str data) as [d|e]; [|done].
  unfold bind at 1. destruct (setup _ _ _ _) as [[[]|e] t1]; [|done].
  unfold bind at 1.
  destruct guess as [g|].
  - unfold bind at 1, emit at 1, emit at 1. rewrite <- app_assoc. cbn [app].
    unfold bind at 1. destruct (run _ _ _) as [[[o e]|e] t3]; [|done]. done.
  - unfold ret at 1. unfold bind at 1.
    destruct (run _ _ _) as [[[o e]|e] t3]; [|done]. done.
Qed.

Lemma fit_stopped fit_level model data guess (t : @trace Model Var) :
  misaligned check_alignment model guess = true →
  ∃ e, fit_at fit_level model data guess t = (Raise e, t).
Proof.
  destruct guess as [g|]; [|done]. simpl.
  intros [Hg Hm]%andb_true_iff. eexists. by apply fit_misaligned.
Qed.
Lemma simulate_aligned model data v count (t : @trace Model Var) :
  misaligned check_alignment model v = false →
  simulate_at model data v count t
  = match _amend_data_input frame_str data with
    | Raise e => (Raise e, t)
    | Ok d =>
        match setup model (Some d) v t with
        | (Raise e, t1) => (Raise e, t1)
        | (Ok _, t1) =>
            match run (str_arg "simulate") [int_arg count]
                    (t1 ++ [set_truth_var v])%list with
            | (Raise e, t3) => (Raise e, t3)
            | (Ok _, t3) =>
                (Ok {| _count := count; _model := model; _data := d |}, t3)
            end
        end
    end.
Proof.
  intros Hal. unfold simulate. unfold bind at 1, lift.
  destruct (_amend_data_input frame_str data) as [d|e]; [|done].
  assert (match v with
          | Some v0 =>
              if truth v0
              then
                if truth (check_alignment model v0)
                then raise (RuntimeError
                       ("Model and fit var are misaligned: "
                        +:+ str_misalignment (check_alignment model v0) +:+ "."))
                else ret ()
              else ret ()
          | None => ret ()
          end = (ret () : @M Model Var ())) as ->.
  { destruct v as [g|]; [|done]. simpl in Hal.
    destruct (truth g); [|done]. by destruct (truth (check_alignment model g)). }
  unfold bind at 1, ret at 1. unfold bind at 1.
  destruct (setup _ _ _ _) as [[[]|e] t1]; [|done].
  unfold bind at 1, emit at 1. unfold bind at 1.
  by destruct (run _ _ _) as [[[o e]|e] t3].
Qed.

Lemma simulate_stopped model data v count (t : @trace Model Var) :
  misaligned check_alignment model v = true →
  ∃ e, simulate_at model data v count t = (Raise e, t).
Proof.
  destruct v as [g|]; [|done]. simpl.
  intros [Hg Hm]%andb_true_iff. rewrite simulate_misaligned by done.
  destruct (_amend_data_input frame_str data); by eexists.
Qed.

Lemma converted_normalised data d :
  _amend_data_input frame_str data = Ok d →
  _point_age_time_to_interval (Some d) = Some d.
Proof.
  intros (Hage & Htime & _)%amend_output_normal_form.
  rewrite point_age_time_converted. f_equal.
  by apply converted_without_points.
Qed.

(** X16.  The processes a call starts.  [_fit] starts [init] and then
    [fit <level>], [simulate] starts [init] and then [simulate <count>],
    in this order and nothing else: a call that returns has started the
    two, a call that raises a prefix of them.  [sample] starts the one
    process [sample simulate <count>] with the count of the result it is
    given. *)
Theorem processes_started model data guess (t : @trace Model Var) :
  (∀ fit_level,
     let out := fit_at fit_level model data guess t in
     let both := [["dmdismod"; filename; "init"];
                  ["dmdismod"; filename; "fit"; fit_level]] in
     ∃ l, invocations out.2 = (invocations t ++ l)%list
          ∧ if succeeded out.1 then l = both else l `prefix_of` both)
  ∧ (∀ count,
     let out := simulate_at model data guess count t in
     let both := [["dmdismod"; filename; "init"];
                  ["dmdismod"; filename; "simulate"; pretty count]] in
     ∃ l, invocations out.2 = (invocations t ++ l)%list
          ∧ if succeeded out.1 then l = both else l `prefix_of` both)
  ∧ (∀ r : @SimulateResult Model,
     invocations (sample_at r t).2
     = (invocations t
        ++ [["dmdismod"; filename; "sample"; "simulate"; pretty (_count r)]])%list).
Proof.
  split; [|split].
  - intros fit_level. cbv zeta.
    destruct (misaligned check_alignment model guess) eqn:Hal.
    { destruct (fit_stopped fit_level model data guess t Hal) as [e ->].
      exists []. rewrite app_nil_r. split; [done|]. apply prefix_nil. }
    rewrite fit_aligned by done.
    destruct (_amend_data_input frame_str data) as [d|e].
    2:{ exists []. rewrite app_nil_r. split; [done|]. apply prefix_nil. }
    destruct (setup_observed model (Some d) guess t) as [Hi _].
    destruct (setup model (Some d) guess t) as [[[]|e] t1]; cbn [fst snd] in Hi.
    2:{ eexists. split; [exact Hi|]. by eexists. }
    match goal with |- context [run ?c ?r ?t2] =>
      pose proof (run_invocations c r t2) as Hr;
      destruct (run c r t2) as [[dm|e] t3] end; cbn [fst snd succeeded] in *.
    all: exists [["dmdismod"; filename; "init"];
                 ["dmdismod"; filename; "fit"; fit_level]].
    all: split; [|done].
    all: rewrite Hr; destruct guess;
      rewrite ?invocations_app, Hi; cbn; by rewrite ?app_nil_r, <- ?app_assoc.
  - intros count. cbv zeta.
    destruct (misaligned check_alignment model guess) eqn:Hal.
    { destruct (simulate_stopped model data guess count t Hal) as [e ->].
      exists []. rewrite app_nil_r. split; [done|]. apply prefix_nil. }
    rewrite simulate_aligned by done.
    destruct (_amend_data_input frame_str data) as [d|e].
    2:{ exists []. rewrite app_nil_r. split; [done|]. apply prefix_nil. }
    destruct (setup_observed model (Some d) guess t) as [Hi _].
    destruct (setup model (Some d) guess t) as [[[]|e] t1]; cbn [fst snd] in Hi.
    2:{ eexists. split; [exact Hi|]. by eexists. }
    match goal with |- context [run ?c ?r ?t2] =>
      pose proof (run_invocations c r t2) as Hr;
      destruct (run c r t2) as [[dm|e] t3] end; cbn [fst snd succeeded] in *.
    all: exists [["dmdismod"; filename; "init"];
                 ["dmdismod"; filename; "simulate"; pretty count]].
    all: split; [|done].
    all: rewrite Hr, invocations_app, Hi; cbn;
      by rewrite ?app_nil_r, <- ?app_assoc.
  - intros r. unfold sample, bind, ask.
    pose proof (run_invocations (str_arg "sample")
                  [str_arg "simulate"; int_arg (_count r)] t) as Hr.
    by destruct (run _ _ _) as [[dm|e] t3].
Qed.

(** X17.  The data a call hands to the store.  A call of [_fit] or
    [simulate] that stops at the alignment test, or whose normalisation
    raises, leaves the history as it was: it writes no data and starts
    no process.  Every other call writes data exactly once, and what it
    writes is the normalised table. *)
Theorem data_written_is_normalised model data guess (t : @trace Model Var) :
  (∀ fit_level,
     let out := fit_at fit_level model data guess t in
     if misaligned check_alignment model guess then out.2 = t
     else match _amend_data_input frame_str data with
          | Raise e => out = (Raise e, t)
          | Ok d => data_written out.2 = (data_written t ++ [Some d])%list
          end)
  ∧ (∀ count,
     let out := simulate_at model data guess count t in
     if misaligned check_alignment model guess then out.2 = t
     else match _amend_data_input frame_str data with
          | Raise e => out = (Raise e, t)
          | Ok d => data_written out.2 = (data_written t ++ [Some d])%list
          end).
Proof.
  cbv zeta. split.
  - intros fit_level.
    destruct (misaligned check_alignment model guess) eqn:Hal.
    { by destruct (fit_stopped fit_level model data guess t Hal) as [e ->]. }
    rewrite fit_aligned by done.
    destruct (_amend_data_input frame_str data) as [d|e] eqn:Hd; [|done].
    destruct (setup_observed model (Some d) guess t) as [_ Hw].
    rewrite (converted_normalised _ _ Hd) in Hw.
    destruct (setup model (Some d) guess t) as [[[]|e] t1]; cbn [fst snd] in Hw;
      [|done].
    match goal with |- context [run ?c ?r ?t2] =>
      pose proof (run_data_written c r t2) as Hr;
      destruct (run c r t2) as [[dm|e] t3] end; cbn [fst snd] in *.
    all: rewrite Hr; destruct guess;
      rewrite ?data_written_app, Hw; cbn; by rewrite ?app_nil_r.
  - intros count.
    destruct (misaligned check_alignment model guess) eqn:Hal.
    { by destruct (simulate_stopped model data guess count t Hal) as [e ->]. }
    rewrite simulate_aligned by done.
    destruct (_amend_data_input frame_str data) as [d|e] eqn:Hd; [|done].
    destruct (setup_observed model (Some d) guess t) as [_ Hw].
    rewrite (converted_normalised _ _ Hd) in Hw.
    destruct (setup model (Some d) guess t) as [[[]|e] t1]; cbn [fst snd] in Hw;
      [|done].
    match goal with |- context [run ?c ?r ?t2] =>
      pose proof (run_data_written c r t2) as Hr;
      destruct (run c r t2) as [[dm|e] t3] end; cbn [fst snd] in *.
    all: rewrite Hr, data_written_app, Hw; cbn; by rewrite ?app_nil_r.
Qed.

(** X18.  What the calls return.  The result of [_fit] holds the variables the
    store has when the call is over and the stdout and stderr that the
    run of [fit <level>], the last step of the call, returned.  The
    result of [simulate] holds the count and the model it was given and
    the normalised data, not the data as given. *)
Theorem results_returned model data guess (t t' : @trace Model Var) :
  (∀ fit_level r,
     fit_at fit_level model data guess t = (Ok r, t') →
     _fit_var r = fit_var t'
     ∧ ∃ t0, run (str_arg "fit") [str_arg fit_level] t0
             = (Ok (dismod_out r, dismod_err r), t'))
  ∧ (∀ count r,
     simulate_at model data guess count t = (Ok r, t') →
     _count r = count ∧ _model r = model
     ∧ _amend_data_input frame_str data = Ok (_data r)).
Proof.
  split.
  - intros fit_level r.
    destruct (misaligned check_alignment model guess) eqn:Hal.
    { by destruct (fit_stopped fit_level model data guess t Hal) as [e ->]. }
    rewrite fit_aligned by done.
    destruct (_amend_data_input frame_str data) as [d|e]; [|done].
    destruct (setup model (Some d) guess t) as [[[]|e] t1]; [|done].
    match goal with |- context [run ?c ?r ?t2] =>
      destruct (run c r t2) as [[[o err]|e] t3] eqn:Hrun end; [|done].
    intros H. injection H as <- <-. split; [done|]. by eexists.
  - intros count r.
    destruct (misaligned check_alignment model guess) eqn:Hal.
    { by destruct (simulate_stopped model data guess count t Hal) as [e ->]. }
    rewrite simulate_aligned by done.
    destruct (_amend_data_input frame_str data) as [d|e]; [|done].
    destruct (setup model (Some d) guess t) as [[[]|e] t1]; [|done].
    match goal with |- context [run ?c ?r ?t2] =>
      destruct (run c r t2) as [[[o err]|e] t3] eqn:Hrun end; [|done].
    intros H. injection H as <- <-. done.
Qed.

Lemma app_singleton_ne {A} (l : list A) x : (l ++ [x])%list ≠ l.
Proof.
  intros H. apply (f_equal length) in H. rewrite length_app in H.
  simpl in H. lia.
Qed.

(** X19.  The completion check passes in silence exactly when the last message
    of the log contains ["end <command>"] somewhere: the message need
    not be equal to it. *)
Theorem check_is_substring_test command stdout stderr (t : @trace Model Var) :
  check command stdout stderr t = (Ok (), t)
  ↔ ∃ earlier pre post,
      log_message t = (earlier ++ [pre +:+ ("end " +:+ command) +:+ post])%list.
Proof.
  rewrite check_unfold. unfold lacks_end_line.
  destruct (last (log_message t)) as [message|] eqn:Hlast.
  - apply last_Some in Hlast as [earlier Hlog].
    destruct (str_in ("end " +:+ command) message) eqn:Hin; cbn [negb].
    + split; [intros _|done]. apply str_in_spec in Hin as (pre & post & ->).
      by exists earlier, pre, post.
    + split.
      * repeat case_match; try done. intros [= Heq]. by apply app_singleton_ne in Heq.
      * intros (earlier' & pre & post & Hlog').
        rewrite Hlog in Hlog'. apply app_inj_tail in Hlog' as [_ ->].
        apply not_true_iff_false in Hin. destruct Hin.
        apply str_in_spec. by exists pre, post.
  - apply last_None in Hlast. split.
    + repeat case_match; try done. intros [= Heq]. by apply app_singleton_ne in Heq.
    + intros (earlier & pre & post & Hlog). rewrite Hlast in Hlog.
      by destruct earlier.
Qed.
End session_more_facts.

Lemma results_returned_witness :
  (∃ r t',
     _fit (Truthy0 := plain_object_truthy) (Truthy1 := list_truthy)
       (λ _ _, []) session_examples.str_keys (λ _, false) (λ _, ())
       session_examples.no_tables (λ _, "") "fit.db" solver_world completed_log
       (λ _, ()) (λ _, ()) "fixed" () (Some point_rows) (Some ()) []
     = (Ok r, t')
     ∧ dismod_out r = "EXIT: Optimal Solution Found."
     ∧ ∃ t0, _run_dismod session_examples.no_tables "fit.db" solver_world
               completed_log (str_arg "fit") [str_arg "fixed"] t0
             = (Ok (dismod_out r, dismod_err r), t'))
  ∧ (∃ r t',
     simulate (Truthy0 := plain_object_truthy) (Truthy1 := list_truthy)
       (λ _ _, []) session_examples.str_keys (λ _, false) (λ _, ())
       session_examples.no_tables (λ _, "") "fit.db" solver_world completed_log
       (λ _, ()) () (Some point_rows) (Some ()) 5 []
     = (Ok r, t')
     ∧ _count r = 5%Z
     ∧ _amend_data_input (λ _, "") (Some point_rows) = Ok (_data r)).
Proof.
  split.
  - eexists _, _. split; [vm_compute; reflexivity|]. split; [reflexivity|].
    eapply (proj1 (results_returned (Truthy0 := plain_object_truthy)
              (Truthy1 := list_truthy)
              (λ _ _, []) session_examples.str_keys (λ _, false) (λ _, ())
              session_examples.no_tables (λ _, "") "fit.db" solver_world
              completed_log (λ _, ()) (λ _, ()) () (Some point_rows) (Some ())
              [] _)).
    vm_compute; reflexivity.
  - eexists _, _. split; [vm_compute; reflexivity|].
    pose proof (proj2 (results_returned (Truthy0 := plain_object_truthy)
              (Truthy1 := list_truthy)
              (λ _ _, []) session_examples.str_keys (λ _, false) (λ _, ())
              session_examples.no_tables (λ _, "") "fit.db" solver_world
              completed_log (λ _, ()) (λ _, ()) () (Some point_rows) (Some ())
              [] _) 5%Z _ ltac:(vm_compute; reflexivity)) as (Hc & _ & Hd).
    split; [exact Hc|exact Hd].
Defined.

Lemma check_is_substring_test_witness :
  _check_dismod_command (Model := ()) (Var := ())
    (λ _, ["begin fit"; "fit: end fit fixed"]) "fit" "" "" []
  = (Ok (), []).
Proof.
  apply (proj2 (check_is_substring_test (Model := ()) (Var := ())
           (λ _, ["begin fit"; "fit: end fit fixed"]) "fit" "" "" [])).
  exists ["begin fit"], "fit: ", " fixed". reflexivity.
Defined.

End session_more_facts.

(** ** executor/no_covariate_main.py: [choose_constraints] *)

Module no_covariate_main_facts.
Import pandas session normalisation pandas_facts normalisation_facts.
Import normalisation_more_facts no_covariate_main.

Lemma mask_filter_nil_r {A} (mask : list bool) : mask_filter mask (@nil A) = [].
Proof. by destruct mask as [|[] ?]. Qed.

Lemma rows_of_mask_filter mask index cols :
  rows_of (mask_filter mask index) (mask_filter mask <$> cols)
  = mask_filter mask (rows_of index cols).
Proof.
  revert index cols. induction mask as [|b mask IH]; intros [|l index] cols;
    try done; try by destruct b.
  assert ((tail <$> (mask_filter (true :: mask) <$> cols))
          = (mask_filter mask <$> (tail <$> cols))) as Htail.
  { rewrite <- !list_fmap_compose. apply list_fmap_ext. intros _ [|x v] _; simpl;
      [by rewrite mask_filter_nil_r|done]. }
  assert ((mask_filter (false :: mask) <$> cols)
          = (mask_filter mask <$> (tail <$> cols))) as Hdrop.
  { rewrite <- !list_fmap_compose. apply list_fmap_ext. intros _ [|x v] _; simpl;
      [by rewrite mask_filter_nil_r|done]. }
  destruct b.
  - change (mask_filter (true :: mask) (l :: index))
      with (l :: mask_filter mask index).
    cbn [rows_of].
    change (mask_filter (true :: mask) ((l, head <$> cols) :: ?r))
      with ((l, head <$> cols) :: mask_filter mask r).
    rewrite Htail, IH. f_equal. f_equal.
    rewrite <- !list_fmap_compose. apply list_fmap_ext. by intros _ [|x v] _.
  - change (mask_filter (false :: mask) (l :: index))
      with (mask_filter mask index).
    cbn [rows_of].
    change (mask_filter (false :: mask) ((l, head <$> cols) :: ?r))
      with (mask_filter mask r).
    by rewrite Hdrop, IH.
Qed.

Lemma iterrows_select_rows mask df :
  iterrows (select_rows mask df) = mask_filter mask (iterrows df).
Proof.
  unfold iterrows, select_rows. cbn [index cols].
  rewrite <- rows_of_mask_filter. f_equal.
  rewrite <- !list_fmap_compose. apply list_fmap_ext. by intros _ [k v] _.
Qed.

Lemma length_rows_of index cols : length (rows_of index cols) = length index.
Proof.
  revert cols. induction index as [|l index IH]; intros cols; simpl; [done|].
  by rewrite IH.
Qed.

Lemma mask_filter_partition {A} (f : A → bool) (mask : list A) {B} (l : list B) :
  length mask = length l →
  (mask_filter (negb ∘ f <$> mask) l ++ mask_filter (f <$> mask) l)%list ≡ₚ l.
Proof.
  revert l. induction mask as [|a mask IH]; intros [|x l] Hlen; simpl in *;
    try done.
  injection Hlen as Hlen. destruct (f a); simpl.
  - rewrite <- Permutation_middle. by rewrite IH.
  - by rewrite IH.
Qed.

Lemma mask_filter_sublist {A} (mask : list bool) (l : list A) :
  mask_filter mask l `sublist_of` l.
Proof.
  revert l. induction mask as [|b mask IH]; intros [|x l]; simpl.
  - done.
  - apply sublist_nil_l.
  - by destruct b.
  - destruct b; [by apply sublist_skip|by apply sublist_cons].
Qed.

Lemma columns_select_rows mask df : columns (select_rows mask df) = columns df.
Proof.
  unfold columns, select_rows. cbn [cols].
  rewrite <- list_fmap_compose. apply list_fmap_ext. by intros _ [k v] _.
Qed.

Lemma column_select_rows mask df c :
  column c (select_rows mask df) = mask_filter mask <$> column c df.
Proof.
  unfold column, select_rows. cbn [cols].
  induction (cols df) as [|[k v] l IH]; [done|]. simpl.
  by destruct (decide (k = c)).
Qed.

Lemma mask_filter_eq_measure measure (v : list cell) :
  Forall (λ c, c = CStr measure) (mask_filter (eq_measure measure <$> v) v)
  ∧ Forall (λ c, c ≠ CStr measure)
      (mask_filter (negb ∘ eq_measure measure <$> v) v).
Proof.
  induction v as [|c v [IH1 IH2]]; [done|]. cbn [fmap list_fmap compose].
  destruct (eq_measure measure c) eqn:Hc; cbn [negb mask_filter].
  - split; [|done]. constructor; [|done].
    destruct c; try done. simpl in Hc. by apply bool_decide_eq_true in Hc as ->.
  - split; [done|]. constructor; [|done].
    intros ->. simpl in Hc. by rewrite bool_decide_eq_true_2 in Hc.
Qed.

(** X20.  The two frames [choose_constraints] returns split the rows of the
    bundle: each row goes to exactly one of them, [constraints] has the
    rows whose measure is the given one and [observations] the others,
    both in the order of the bundle and with all its columns. *)
Theorem choose_constraints_partitions bundle measure observations constraints :
  well_formed bundle →
  choose_constraints bundle measure = Some (observations, constraints) →
  (iterrows observations ++ iterrows constraints)%list ≡ₚ iterrows bundle
  ∧ iterrows observations `sublist_of` iterrows bundle
  ∧ iterrows constraints `sublist_of` iterrows bundle
  ∧ columns observations = columns bundle
  ∧ columns constraints = columns bundle
  ∧ Forall (λ c, c = CStr measure) (getitem constraints "measure")
  ∧ Forall (λ c, c ≠ CStr measure) (getitem observations "measure").
Proof.
  intros Hwf. unfold choose_constraints.
  destruct (has_column "measure" bundle) eqn:Hm; [|done].
  intros [= <- <-].
  pose proof (well_formed_getitem bundle "measure" Hwf Hm) as Hlen.
  rewrite !iterrows_select_rows, !columns_select_rows.
  rewrite !getitem_unfold, !column_select_rows.
  apply has_column_true in Hm as [v Hv].
  rewrite (getitem_column _ _ _ Hv) in Hlen. rewrite !Hv.
  cbn [fmap option_fmap option_map from_option id].
  destruct (mask_filter_eq_measure measure v) as [Hc Ho].
  repeat split; try done; try apply mask_filter_sublist.
  apply mask_filter_partition. unfold iterrows. by rewrite length_rows_of.
Qed.

Lemma choose_constraints_partitions_witness :
  ∃ observations constraints,
    choose_constraints bundle_rows "mtother" = Some (observations, constraints)
    ∧ index observations = [LInt 0; LInt 2]
    ∧ index constraints = [LInt 1]
    ∧ (iterrows observations ++ iterrows constraints)%list
      ≡ₚ iterrows bundle_rows.
Proof.
  eexists _, _. split; [vm_compute; reflexivity|].
  split; [reflexivity|]. split; [reflexivity|].
  apply (choose_constraints_partitions bundle_rows "mtother").
  - split; [apply (bool_decide_unpack _); by vm_compute|by repeat constructor].
  - vm_compute; reflexivity.
Defined.

End no_covariate_main_facts.
